(** * Lunaria cycle calculator: a shallow embedding of
      [backend/app/services/cycle.py] and the properties of its
      day-number / phase arithmetic. *)

From Stdlib Require Import ZArith Lia Bool List.
From stdpp Require Import base option gmap strings.

Local Open Scope string_scope.
Local Open Scope Z_scope.

(** ** Python's [datetime.date]

    The service only uses three things of [datetime.date]: the rich
    comparison [<], the subtraction [d1 - d2] (whose [.days] is the
    difference of the proleptic Gregorian ordinals) and
    [date + timedelta(days=n)].  They are modelled after CPython's
    [datetime] module: a date is a (year, month, day) triple, ordered
    lexicographically, and [toordinal] counts days from 0001-01-01 = 1. *)

Module Datetime.

Record date : Type := mkdate { year : Z; month : Z; day : Z }.

Definition MINYEAR : Z := 1.
Definition MAXYEAR : Z := 9999.

(** Index 0 is the unused [-1] placeholder of the Python table. *)
Definition DAYS_IN_MONTH : list Z :=
  [-1; 31; 28; 31; 30; 31; 30; 31; 31; 30; 31; 30; 31].

(** [_DAYS_BEFORE_MONTH] is built by the module-level loop
    [dbm = 0; for dim in _DAYS_IN_MONTH[1:]: append(dbm); dbm += dim]. *)
Fixpoint running_sums (dbm : Z) (dims : list Z) : list Z :=
  match dims with
  | [] => []
  | dim :: rest => dbm :: running_sums (dbm + dim) rest
  end.

Definition DAYS_BEFORE_MONTH : list Z :=
  -1 :: running_sums 0 (tail DAYS_IN_MONTH).

(** Table lookup [table[month]]; the months that reach it are in 1..12. *)
Definition table_get (table : list Z) (i : Z) : Z :=
  nth (Z.to_nat i) table (-1).

Definition is_leap (y : Z) : bool :=
  (y mod 4 =? 0) && (negb (y mod 100 =? 0) || (y mod 400 =? 0)).

Definition days_before_year (y : Z) : Z :=
  let y' := y - 1 in
  y' * 365 + y' / 4 - y' / 100 + y' / 400.

Definition days_in_month (y m : Z) : Z :=
  if (m =? 2) && is_leap y then 29 else table_get DAYS_IN_MONTH m.

Definition days_before_month (y m : Z) : Z :=
  table_get DAYS_BEFORE_MONTH m + (if (m >? 2) && is_leap y then 1 else 0).

Definition ymd2ord (y m d : Z) : Z :=
  days_before_year y + days_before_month y m + d.

Definition toordinal (d : date) : Z := ymd2ord (year d) (month d) (day d).

(** The check of the [date] constructor: every [date] object satisfies it. *)
Definition valid_date (d : date) : Prop :=
  MINYEAR <= year d <= MAXYEAR /\
  1 <= month d <= 12 /\
  1 <= day d <= days_in_month (year d) (month d).

Definition valid_dateb (d : date) : bool :=
  (MINYEAR <=? year d) && (year d <=? MAXYEAR) &&
  (1 <=? month d) && (month d <=? 12) &&
  (1 <=? day d) && (day d <=? days_in_month (year d) (month d)).

(** [date.__lt__]: tuple comparison of (year, month, day). *)
Definition date_lt (a b : date) : bool :=
  (year a <? year b)
  || ((year a =? year b)
      && ((month a <? month b)
          || ((month a =? month b) && (day a <? day b)))).

(** [(a - b).days] *)
Definition days_between (a b : date) : Z := toordinal a - toordinal b.

Definition MAXORDINAL : Z := 3652059.
Definition DI400Y : Z := days_before_year 401.
Definition DI100Y : Z := days_before_year 101.
Definition DI4Y : Z := days_before_year 5.

(** [_ord2ymd], the inverse of [ymd2ord]; [divmod] is floor division,
    as [Z.div] and [Z.modulo] are, and [>> 5] is [Z.shiftr _ 5]. *)
Definition ord2ymd (n : Z) : date :=
  let n := n - 1 in
  let n400 := n / DI400Y in
  let n := n mod DI400Y in
  let year := n400 * 400 + 1 in
  let n100 := n / DI100Y in
  let n := n mod DI100Y in
  let n4 := n / DI4Y in
  let n := n mod DI4Y in
  let n1 := n / 365 in
  let n := n mod 365 in
  let year := year + (n100 * 100 + n4 * 4 + n1) in
  if (n1 =? 4) || (n100 =? 4) then mkdate (year - 1) 12 31
  else
    let leapyear := (n1 =? 3) && (negb (n4 =? 24) || (n100 =? 3)) in
    let month := Z.shiftr (n + 50) 5 in
    let preceding :=
      table_get DAYS_BEFORE_MONTH month
      + (if (month >? 2) && leapyear then 1 else 0) in
    if preceding >? n then
      let month := month - 1 in
      let preceding :=
        preceding - (table_get DAYS_IN_MONTH month
                     + (if (month =? 2) && leapyear then 1 else 0)) in
      mkdate year month (n - preceding + 1)
    else mkdate year month (n - preceding + 1).

Definition fromordinal (n : Z) : date := ord2ymd n.

(** The last lines of [_ord2ymd] on their own: the month and the day
    found from [n], the 0-based day of the year, and the leap flag. *)
Definition month_day_of (leapyear : bool) (n : Z) : Z * Z :=
  let month := Z.shiftr (n + 50) 5 in
  let preceding :=
    table_get DAYS_BEFORE_MONTH month
    + (if (month >? 2) && leapyear then 1 else 0) in
  if preceding >? n then
    let month := month - 1 in
    let preceding :=
      preceding - (table_get DAYS_IN_MONTH month
                   + (if (month =? 2) && leapyear then 1 else 0)) in
    (month, n - preceding + 1)
  else (month, n - preceding + 1).

(** The check [month_day_of] must pass on every day of a year; years 4
    and 1 stand for the leap and the common years. *)
Definition month_day_ok (leapyear : bool) (n : Z) : bool :=
  let y := if leapyear then 4 else 1 in
  let '(m, d) := month_day_of leapyear n in
  (1 <=? m) && (m <=? 12) && (1 <=? d) && (d <=? days_in_month y m)
  && (days_before_month y m + d =? n + 1).

(** [date.__add__] with [timedelta(days=n)]: [None] stands for the
    [OverflowError] of a result outside 0001-01-01 .. 9999-12-31. *)
Definition date_add (d : date) (n : Z) : option date :=
  let o := toordinal d + n in
  if (0 <? o) && (o <=? MAXORDINAL) then Some (fromordinal o) else None.

End Datetime.

(** ** The response models of [app/models/cycle.py] *)

Module Models.

Record PhaseDetails : Type := mkPhaseDetails {
  energy : string;
  emotional : string;
  nutrition : string;
  exercise : string
}.

(** [details: Optional[dict] = None]: the dictionary [model_dump()] of
    a [PhaseDetails] produces, keyed by field name. *)
Record DayInfo : Type := mkDayInfo {
  date : Datetime.date;
  cycleDay : Z;
  phase : string;
  details : option (gmap string string)
}.

Definition model_dump (d : PhaseDetails) : gmap string string :=
  <["energy" := energy d]>
    (<["emotional" := emotional d]>
       (<["nutrition" := nutrition d]>
          (<["exercise" := exercise d]> ∅))).

(** The attribute assignment [day_info.details = v]. *)
Definition set_details (i : DayInfo) (v : gmap string string) : DayInfo :=
  {| date := date i; cycleDay := cycleDay i; phase := phase i;
     details := Some v |}.

End Models.

(** ** Python values, exceptions and the logger *)

Module Py.

(** What a caller may pass where the signature says [date]: the
    functions test [isinstance(x, date)] themselves. *)
Inductive pyobj : Type :=
| PyDate (d : Datetime.date)
| PyStr (s : string)
| PyInt (n : Z)
| PyNone.

Definition isinstance_date (v : pyobj) : bool :=
  match v with PyDate _ => true | _ => false end.

Inductive exn : Type :=
| ValueError (msg : string)
| KeyError (key : string)
| Exception (msg : string).

Definition is_ValueError (e : exn) : bool :=
  match e with ValueError _ => true | _ => false end.

(** [str(e)], what an f-string interpolates; a [KeyError] shows the
    [repr] of its key, between single quotes. *)
Definition exn_str (e : exn) : string :=
  match e with
  | ValueError msg => msg
  | KeyError key => "'" +:+ key +:+ "'"
  | Exception msg => msg
  end.

Inductive result (A : Type) : Type :=
| Ok (a : A)
| Raise (e : exn).
Arguments Ok {A} a.
Arguments Raise {A} e.

(** One record per [logger] call of the service. *)
Inductive log_record : Type :=
| Warning (msg : string)
| InfoResult (prefix : string) (d : Models.DayInfo).

(** Computations that write to the logger and may raise: the records
    emitted so far, oldest first, and the outcome. *)
Definition Eff (A : Type) : Type := list log_record * result A.

Definition ret {A} (a : A) : Eff A := ([], Ok a).
Definition raise {A} (e : exn) : Eff A := ([], Raise e).
Definition emit (r : log_record) : Eff unit := ([r], Ok tt).
Definition lift {A} (r : result A) : Eff A := ([], r).

Definition bind {A B} (m : Eff A) (k : A -> Eff B) : Eff B :=
  match m with
  | (l, Ok a) => let (l', r) := k a in ((l ++ l')%list, r)
  | (l, Raise e) => (l, Raise e)
  end.

(** [try: m  except ... as e: raise h(e)] *)
Definition try_except {A} (m : Eff A) (h : exn -> exn) : Eff A :=
  match m with
  | (l, Raise e) => (l, Raise (h e))
  | ok => ok
  end.

Definition outcome {A} (m : Eff A) : result A := snd m.

(** [d[k]] on a [dict] *)
Definition dict_get {V} (d : gmap string V) (k : string) : Eff V :=
  match d !! k with
  | Some v => ret v
  | None => raise (KeyError k)
  end.

End Py.

Notation "'let*' x ':=' m 'in' k" := (Py.bind m (fun x => k))
  (at level 10, x name, m at level 100, k at level 200).
Notation "m '>>' k" := (Py.bind m (fun _ => k))
  (at level 100, k at level 200, right associativity).

(** ** [app/services/cycle.py] *)

Module Cycle.
Import Datetime Models Py.

Definition DEFAULT_CYCLE_LENGTH : Z := 28.
Definition DEFAULT_PERIOD_LENGTH : Z := 5.
Definition MIN_CYCLE_LENGTH : Z := 21.
Definition MAX_CYCLE_LENGTH : Z := 35.

Definition VALID_PHASES : gset string :=
  {[ "menstrual"; "follicular"; "ovulatory"; "luteal" ]}.

Definition menstrual_details : PhaseDetails := {|
  energy := "Energy levels may be lower. Focus on rest and gentle movement.";
  emotional := "You may experience mood swings. Practice self-compassion.";
  nutrition := "Iron-rich foods are important. Stay hydrated and consider warm, nourishing meals.";
  exercise := "Light exercises like walking or gentle yoga are recommended." |}.

Definition follicular_details : PhaseDetails := {|
  energy := "Energy levels begin to rise. Good time for new projects.";
  emotional := "Increased optimism and creativity. Social energy is high.";
  nutrition := "Focus on lean proteins and fresh vegetables to support hormonal balance.";
  exercise := "Great time for high-intensity workouts and trying new activities." |}.

Definition ovulatory_details : PhaseDetails := {|
  energy := "Peak energy levels. Take advantage of natural confidence.";
  emotional := "High communication skills and social confidence.";
  nutrition := "Eat light, fresh foods. Support detoxification with leafy greens.";
  exercise := "Perfect for challenging workouts and endurance training." |}.

Definition luteal_details : PhaseDetails := {|
  energy := "Energy gradually decreases. Listen to your body's needs.";
  emotional := "May experience PMS symptoms. Focus on self-care.";
  nutrition := "Include complex carbs and magnesium-rich foods to support mood.";
  exercise := "Moderate exercise like swimming or pilates works well." |}.

Definition PHASE_DETAILS : gmap string PhaseDetails :=
  <["menstrual" := menstrual_details]>
    (<["follicular" := follicular_details]>
       (<["ovulatory" := ovulatory_details]>
          (<["luteal" := luteal_details]> ∅))).

Definition clamp_cycle_length (value : Z) : Z :=
  Z.max MIN_CYCLE_LENGTH (Z.min value MAX_CYCLE_LENGTH).

Definition get_cycle_day (target_date last_period_start_date : pyobj)
    (cycle_length : Z) : result Z :=
  match target_date, last_period_start_date with
  | PyDate target, PyDate last_period_start =>
      if cycle_length <=? 0 then
        Raise (ValueError "cycle_length must be a positive integer.")
      else if date_lt target last_period_start then
        Raise (ValueError "Target date can not be before the last period start date.")
      else
        let clamped := clamp_cycle_length cycle_length in
        let diff := days_between target last_period_start in
        Ok (diff mod clamped + 1)
  | _, _ =>
      Raise (ValueError "target_date and last_period_start_date must be date objects.")
  end.

Definition get_cycle_phase (cycle_day cycle_length period_length
    luteal_phase_length : Z) : result string :=
  if (cycle_day <=? 0) || (cycle_length <=? 0) || (period_length <=? 0)
     || (luteal_phase_length <=? 0) then
    Raise (ValueError "Cycle day, cycle length, period length, and luteal phase length must be positive integers.")
  else if period_length >? cycle_length then
    Raise (ValueError "Period length cannot be longer than cycle length.")
  else
    let clamped := clamp_cycle_length cycle_length in
    if cycle_day <=? period_length then Ok "menstrual"
    else
      let luteal_start := clamped - luteal_phase_length in
      if cycle_day >=? luteal_start then Ok "luteal"
      else
        let ovulation_day := clamped - luteal_phase_length - 1 in
        if (ovulation_day <=? cycle_day) && (cycle_day <=? ovulation_day + 2)
        then Ok "ovulatory"
        else Ok "follicular".

(** The default of the keyword argument [luteal_phase_length]. *)
Definition DEFAULT_LUTEAL_PHASE_LENGTH : Z := 14.

Definition get_phase_details (phase : string) : Eff PhaseDetails :=
  if bool_decide (phase ∉ VALID_PHASES) then
    emit (Warning ("Unexpected phase encountered: " +:+ phase)) >>
    dict_get PHASE_DETAILS "follicular"
  else dict_get PHASE_DETAILS phase.

(** All four text fields of a record are filled in. *)
Definition populated (d : PhaseDetails) : Prop :=
  energy d <> "" /\ emotional d <> "" /\ nutrition d <> "" /\ exercise d <> "".

(** The two [except] clauses of [get_day_info], as the exception that
    leaves the handler. *)
Definition day_info_handler (e : exn) : exn :=
  match e with
  | ValueError msg => ValueError ("Error calculating day info: " +:+ msg)
  | e => Exception ("An unexpected error occurred: " +:+ exn_str e)
  end.

(** [DayInfo(date=target_date.isoformat(), ...)]: the [date] field is
    declared [date], so the model's validation parses the ISO text back
    into the date it was printed from. *)
Definition get_day_info (target_date last_period_start_date : pyobj)
    (cycle_length period_length : Z) (include_details : bool) : Eff DayInfo :=
  match target_date, last_period_start_date with
  | PyDate target, PyDate last_period_start =>
      if (cycle_length <=? 0) || (period_length <=? 0) then
        raise (ValueError "cycle_length and period_length must be positive integers.")
      else if date_lt target last_period_start then
        raise (ValueError "Target date can not be before the last period start date.")
      else
        try_except
          (let* cycle_day :=
             lift (get_cycle_day target_date last_period_start_date cycle_length) in
           let* phase :=
             lift (get_cycle_phase cycle_day cycle_length period_length
                     DEFAULT_LUTEAL_PHASE_LENGTH) in
           let day_info :=
             {| date := target; cycleDay := cycle_day; phase := phase;
                details := None |} in
           let* day_info :=
             (if include_details then
                let* d := get_phase_details phase in
                ret (set_details day_info (model_dump d))
              else ret day_info) in
           emit (InfoResult "get_day_info result: " day_info) >>
           ret day_info)
          day_info_handler
  | _, _ =>
      raise (ValueError "target_date and last_period_start_date must be date objects.")
  end.

End Cycle.

(** ** [app/api/routes/cycle.py] *)

Module Routes.
Import Datetime Models Py Cycle.

(** [date.__gt__]: the tuple comparison, the other way round. *)
Definition date_gt (a b : Datetime.date) : bool := date_lt b a.

(** [d - timedelta(days=n)]: Python adds the negated interval. *)
Definition date_sub_days (d : Datetime.date) (n : Z) : option Datetime.date :=
  date_add d (- n).

(** One record per [logger] call of the route; [FromService] is a
    record the service wrote during the call. *)
Inductive api_log : Type :=
| RequestReceived (query_date last_period_start_date : option Datetime.date)
    (cycle_length period_length : Z) (include_details : bool)
| ApiWarning (msg : string)
| ApiError (msg : string)
| ApiException (msg : string)
| FromService (r : log_record).

(** What the client gets.  [Unprocessable] is the 422 answer FastAPI
    builds itself when a parameter breaks its declared [ge]/[le] bound;
    [UnhandledOverflowError] is an exception that leaves the handler
    uncaught. *)
Inductive response : Type :=
| Response200 (body : DayInfo)
| HTTPException (status_code : Z) (detail : string)
| Unprocessable
| UnhandledOverflowError.

(** The body of [day_info_api]; [current_date] is
    [current_utc_datetime.date()] of the injected clock.  A date is
    always truthy, so [x or y] and [x and y] only test for [None]. *)
Definition day_info_api (query_date last_period_start_date : option Datetime.date)
    (cycle_length period_length : Z) (include_details : bool)
    (current_date : Datetime.date) : list api_log * response :=
  let target :=
    match query_date with Some d => d | None => current_date end in
  match
    match last_period_start_date with
    | Some d => Some d
    | None => date_sub_days current_date 28
    end
  with
  | None => ([], UnhandledOverflowError)
  | Some anchor =>
      let received :=
        [RequestReceived query_date last_period_start_date cycle_length
           period_length include_details] in
      if match last_period_start_date with
         | Some d => date_gt d target
         | None => false
         end
      then
        ((received ++ [ApiWarning "Last period start date in the future."])%list,
         HTTPException 400 "The last period start date cannot be in the future.")
      else
        match get_day_info (PyDate target) (PyDate anchor) cycle_length
                period_length include_details with
        | (l, Ok day_info) =>
            ((received ++ map FromService l)%list, Response200 day_info)
        | (l, Raise e) =>
            if is_ValueError e then
              ((received ++ map FromService l
                ++ [ApiError ("ValueError during calculation: " +:+ exn_str e)])%list,
               HTTPException 400 (exn_str e))
            else
              ((received ++ map FromService l
                ++ [ApiException "An unexpected error occurred."])%list,
               HTTPException 500 "An internal server error occurred.")
        end
  end.

(** The route as a client reaches it: absent parameters take the
    defaults of the signature, and the bounds declared there
    ([cycle_length]: [ge=21, le=35]; [period_length]: [ge=1]) are
    checked before the handler runs. *)
Definition day_info_route (query_date last_period_start_date : option Datetime.date)
    (cycle_length period_length : option Z) (include_details : option bool)
    (current_date : Datetime.date) : list api_log * response :=
  let cycle_length := default 28 cycle_length in
  let period_length := default 5 period_length in
  let include_details := default false include_details in
  if (cycle_length >=? 21) && (cycle_length <=? 35) && (period_length >=? 1)
  then day_info_api query_date last_period_start_date cycle_length
         period_length include_details current_date
  else ([], Unprocessable).

End Routes.

(** ** Vocabulary for the properties of the phases *)

Module PhaseOrder.
Import Py Cycle.

(** The place of a phase in the course of a cycle. *)
Definition phase_rank (p : string) : Z :=
  if String.eqb p "menstrual" then 0
  else if String.eqb p "follicular" then 1
  else if String.eqb p "ovulatory" then 2
  else 3.

Definition is_phase (p : string) (r : result string) : bool :=
  match r with
  | Ok q => String.eqb q p
  | Raise _ => false
  end.

(** The days of one cycle, 1 .. clamped length, that fall in phase [p]. *)
Definition phase_days (p : string)
    (cycle_length period_length luteal_phase_length : Z) : list Z :=
  List.filter
    (fun cycle_day =>
       is_phase p (get_cycle_phase cycle_day cycle_length period_length
                     luteal_phase_length))
    (seqZ 1 (clamp_cycle_length cycle_length)).

End PhaseOrder.

Import Models Py Cycle Datetime Routes PhaseOrder.

(** ** Facts about the calendar arithmetic *)

Section DateFacts.

Ltac split_month m :=
  let H := fresh in
  assert (H : m = 1 \/ m = 2 \/ m = 3 \/ m = 4 \/ m = 5 \/ m = 6 \/ m = 7
              \/ m = 8 \/ m = 9 \/ m = 10 \/ m = 11 \/ m = 12) by lia;
  repeat (destruct H as [H | H]); subst m.

(** Reads the entries of the month tables at literal indices. *)
Ltac read_tables :=
  repeat match goal with
  | |- context [table_get ?t ?k] =>
      let v := eval vm_compute in (table_get t k) in
      change (table_get t k) with v
  end;
  cbn [Z.eqb Z.ltb Z.gtb Z.compare Pos.compare Pos.compare_cont Pos.eqb
       andb orb negb].

Lemma days_before_year_succ (y : Z) :
  days_before_year (y + 1)
  = days_before_year y + 365 + (if is_leap y then 1 else 0).
Proof.
  unfold days_before_year, is_leap.
  replace (y + 1 - 1) with y by lia.
  destruct (Z.eqb_spec (y mod 4) 0), (Z.eqb_spec (y mod 100) 0),
    (Z.eqb_spec (y mod 400) 0); cbn [negb andb orb];
    Z.div_mod_to_equations; lia.
Qed.

Lemma days_before_year_mono (y y' : Z) :
  y <= y' -> days_before_year y <= days_before_year y'.
Proof.
  intros Hle.
  assert (Hn : forall n, 0 <= n -> days_before_year y <= days_before_year (y + n)).
  { intros n Hn. pattern n. apply natlike_ind; [ | | exact Hn].
    - now rewrite Z.add_0_r.
    - intros k Hk IH. replace (y + Z.succ k) with (y + k + 1) by lia.
      rewrite days_before_year_succ. destruct (is_leap (y + k)); lia. }
  specialize (Hn (y' - y)). replace (y + (y' - y)) with y' in Hn by lia.
  apply Hn. lia.
Qed.

(** A month lies inside its year. *)
Lemma month_span (y m : Z) :
  1 <= m <= 12 ->
  0 <= days_before_month y m /\
  28 <= days_in_month y m <= 31 /\
  days_before_month y m + days_in_month y m
    <= 365 + (if is_leap y then 1 else 0).
Proof.
  intros Hm. unfold days_before_month, days_in_month.
  destruct (is_leap y); split_month m; read_tables; lia.
Qed.

(** Months do not overlap: a later month starts after an earlier one ends. *)
Lemma month_step (y m m' : Z) :
  1 <= m -> m < m' -> m' <= 12 ->
  days_before_month y m + days_in_month y m <= days_before_month y m'.
Proof.
  intros H1 Hlt H12. unfold days_before_month, days_in_month.
  destruct (is_leap y); split_month m; split_month m'; read_tables; lia.
Qed.

Lemma date_lt_irrefl (a : date) : date_lt a a = false.
Proof.
  unfold date_lt. rewrite !Z.ltb_irrefl, !Z.eqb_refl. reflexivity.
Qed.

Lemma date_lt_spec (a b : date) :
  date_lt a b = true <->
  year a < year b \/
  (year a = year b /\
   (month a < month b \/ (month a = month b /\ day a < day b))).
Proof.
  unfold date_lt.
  rewrite !orb_true_iff, !andb_true_iff, !orb_true_iff, !andb_true_iff,
    !Z.ltb_lt, !Z.eqb_eq.
  tauto.
Qed.

(** The lexicographic order is total. *)
Lemma date_lt_trichotomy (a b : date) :
  date_lt a b = false ->
  date_lt b a = true \/ a = b.
Proof.
  intros Hf. destruct a as [ya ma da], b as [yb mb db].
  destruct (date_lt (mkdate yb mb db) (mkdate ya ma da)) eqn:Hba; [now left | right].
  assert (Hab : ~ date_lt (mkdate ya ma da) (mkdate yb mb db) = true) by congruence.
  assert (Hba' : ~ date_lt (mkdate yb mb db) (mkdate ya ma da) = true) by congruence.
  rewrite date_lt_spec in Hab, Hba'. cbn in Hab, Hba'.
  f_equal; lia.
Qed.

(** [toordinal] is strictly monotone on the dates Python can build: the
    tuple order used by [<] and the day count used by [-] agree. *)
Lemma toordinal_lt (a b : date) :
  valid_date a -> valid_date b ->
  date_lt a b = true -> toordinal a < toordinal b.
Proof.
  intros (Hya & Hma & Hda) (Hyb & Hmb & Hdb) Hlt.
  apply date_lt_spec in Hlt.
  unfold toordinal, ymd2ord.
  pose proof (month_span (year a) (month a) Hma) as (Ha0 & _ & Ha1).
  pose proof (month_span (year b) (month b) Hmb) as (Hb0 & _ & Hb1).
  destruct Hlt as [Hy | (Hy & [Hm | (Hm & Hd)])].
  - pose proof (days_before_year_mono (year a + 1) (year b) ltac:(lia)) as Hmono.
    rewrite days_before_year_succ in Hmono. lia.
  - rewrite Hy in *.
    pose proof (month_step (year b) (month a) (month b)
                  ltac:(lia) Hm ltac:(lia)).
    lia.
  - rewrite Hy, Hm. lia.
Qed.

Lemma toordinal_le (a b : date) :
  valid_date a -> valid_date b ->
  date_lt a b = false -> toordinal b <= toordinal a.
Proof.
  intros Ha Hb Hf. destruct (date_lt_trichotomy a b Hf) as [Hba | ->]; [ | lia].
  pose proof (toordinal_lt b a Hb Ha Hba). lia.
Qed.

Lemma date_lt_false_of_ordinal (a b : date) :
  valid_date a -> valid_date b ->
  toordinal b <= toordinal a -> date_lt a b = false.
Proof.
  intros Ha Hb Hle. destruct (date_lt a b) eqn:E; [ | reflexivity].
  pose proof (toordinal_lt a b Ha Hb E). lia.
Qed.

Lemma valid_dateb_spec (d : date) : valid_dateb d = true <-> valid_date d.
Proof.
  unfold valid_dateb, valid_date.
  rewrite !andb_true_iff, !Z.leb_le. tauto.
Qed.

(** Every day of a year gets the month and day it has in that year. *)
Lemma month_day_of_spec (y n : Z) :
  0 <= n < 365 ->
  let '(m, d) := month_day_of (is_leap y) n in
  1 <= m <= 12 /\ 1 <= d <= days_in_month y m /\
  days_before_month y m + d = n + 1.
Proof.
  intros Hn.
  assert (Hall : forallb (fun k => month_day_ok true k && month_day_ok false k)
                   (seqZ 0 365) = true) by (vm_compute; reflexivity).
  rewrite forallb_forall in Hall.
  specialize (Hall n).
  assert (Hin : In n (seqZ 0 365)).
  { apply list_elem_of_In, elem_of_seqZ. lia. }
  apply Hall in Hin. apply andb_true_iff in Hin as [Ht Hf].
  unfold month_day_ok in Ht, Hf.
  unfold days_in_month, days_before_month in *.
  destruct (is_leap y).
  - destruct (month_day_of true n) as [m d].
    change (is_leap 4) with true in Ht.
    rewrite !andb_true_iff, !Z.leb_le, Z.eqb_eq in Ht. lia.
  - destruct (month_day_of false n) as [m d].
    change (is_leap 1) with false in Hf.
    rewrite !andb_true_iff, !Z.leb_le, Z.eqb_eq in Hf. lia.
Qed.

(** The digits of a day count in the mixed base 400 / 100 / 4 / 1 years. *)
Lemma year_part (n : Z) :
  0 <= n ->
  let n400 := n / 146097 in
  let r400 := n mod 146097 in
  let n100 := r400 / 36524 in
  let r100 := r400 mod 36524 in
  let n4 := r100 / 1461 in
  let r4 := r100 mod 1461 in
  let n1 := r4 / 365 in
  let r1 := r4 mod 365 in
  0 <= n400 /\ 0 <= n100 <= 4 /\ 0 <= n4 <= 24 /\ 0 <= n1 <= 4 /\ 0 <= r1 < 365 /\
  (n100 = 4 -> n4 = 0 /\ n1 = 0 /\ r1 = 0) /\
  (n1 = 4 -> r1 = 0 /\ (n4 <> 24 \/ n100 = 3)) /\
  n = 146097 * n400 + 36524 * n100 + 1461 * n4 + 365 * n1 + r1.
Proof.
  intros Hn. cbv zeta. Z.div_mod_to_equations. lia.
Qed.

Lemma days_before_year_digits (a b c d : Z) :
  0 <= b <= 3 -> 0 <= c <= 24 -> 0 <= d <= 3 ->
  days_before_year (a * 400 + 1 + (b * 100 + c * 4 + d))
  = 146097 * a + 36524 * b + 1461 * c + 365 * d.
Proof.
  intros Hb Hc Hd. unfold days_before_year. Z.div_mod_to_equations. lia.
Qed.

Lemma is_leap_digits (a b c d : Z) :
  0 <= b <= 3 -> 0 <= c <= 24 -> 0 <= d <= 3 ->
  is_leap (a * 400 + 1 + (b * 100 + c * 4 + d))
  = (d =? 3) && (negb (c =? 24) || (b =? 3)).
Proof.
  intros Hb Hc Hd. unfold is_leap.
  destruct (Z.eqb_spec d 3), (Z.eqb_spec c 24), (Z.eqb_spec b 3);
    cbn [negb andb orb];
    repeat match goal with
    | |- context [Z.eqb ?x ?y] => destruct (Z.eqb_spec x y)
    end; cbn [negb andb orb]; try reflexivity;
    exfalso; Z.div_mod_to_equations; lia.
Qed.

Lemma ord2ymd_unfold (n : Z) :
  ord2ymd n =
  let n0 := n - 1 in
  let n400 := n0 / 146097 in
  let r400 := n0 mod 146097 in
  let n100 := r400 / 36524 in
  let r100 := r400 mod 36524 in
  let n4 := r100 / 1461 in
  let r4 := r100 mod 1461 in
  let n1 := r4 / 365 in
  let r1 := r4 mod 365 in
  let y := n400 * 400 + 1 + (n100 * 100 + n4 * 4 + n1) in
  if (n1 =? 4) || (n100 =? 4) then mkdate (y - 1) 12 31
  else
    let '(m, d) :=
      month_day_of ((n1 =? 3) && (negb (n4 =? 24) || (n100 =? 3))) r1 in
    mkdate y m d.
Proof.
  unfold ord2ymd, month_day_of.
  change DI400Y with 146097. change DI100Y with 36524. change DI4Y with 1461.
  cbv zeta.
  destruct (_ || _); [reflexivity | ].
  destruct (_ >? _); reflexivity.
Qed.

(** [fromordinal] inverts [toordinal] and builds well-formed dates. *)
Lemma ord2ymd_spec (n : Z) :
  1 <= n <= MAXORDINAL ->
  valid_date (ord2ymd n) /\ toordinal (ord2ymd n) = n.
Proof.
  intros [Hlo Hhi].
  assert (Hmain : exists dt,
    ord2ymd n = dt /\
    1 <= year dt /\ 1 <= month dt <= 12 /\
    1 <= day dt <= days_in_month (year dt) (month dt) /\
    toordinal dt = n).
  { rewrite ord2ymd_unfold.
    pose proof (year_part (n - 1) ltac:(lia)) as Hy.
    cbv zeta in Hy |- *.
    set (n400 := (n - 1) / 146097) in *.
    set (r400 := (n - 1) mod 146097) in *.
    set (n100 := r400 / 36524) in *.
    set (r100 := r400 mod 36524) in *.
    set (n4 := r100 / 1461) in *.
    set (r4 := r100 mod 1461) in *.
    set (n1 := r4 / 365) in *.
    set (r1 := r4 mod 365) in *.
    clearbody n400 r400 n100 r100 n4 r4 n1 r1.
    destruct Hy as (H400 & H100 & H4 & H1 & Hr & Hc100 & Hc1 & Hn).
    destruct ((n1 =? 4) || (n100 =? 4)) eqn:Hend.
    - (* the last day of a leap year, or of a 400-year cycle *)
      apply orb_true_iff in Hend. rewrite !Z.eqb_eq in Hend.
      assert (Hyear : exists b c,
                 0 <= b <= 3 /\ 0 <= c <= 24 /\ (c <> 24 \/ b = 3) /\
                 n400 * 400 + 1 + (n100 * 100 + n4 * 4 + n1) - 1
                 = n400 * 400 + 1 + (b * 100 + c * 4 + 3) /\
                 n - 1 = 146097 * n400 + 36524 * b + 1461 * c + 1460).
      { destruct (Z.eq_dec n100 4) as [E100 | N100].
        - destruct (Hc100 E100) as (-> & -> & ->). exists 3, 24. lia.
        - exists n100, n4. destruct Hend as [E1 | ?]; [ | lia].
          destruct (Hc1 E1) as (-> & Hl). lia. }
      destruct Hyear as (b & c & Hb & Hc & Hl & -> & Hn').
      eexists. split; [reflexivity | ].
      unfold toordinal, ymd2ord, days_in_month, days_before_month.
      cbn [year month day].
      rewrite is_leap_digits, days_before_year_digits by lia.
      replace ((3 =? 3) && (negb (c =? 24) || (b =? 3))) with true.
      2:{ symmetry. rewrite Z.eqb_refl. cbn [andb].
          destruct Hl as [Hl | ->]; [ | now rewrite Z.eqb_refl, orb_true_r].
          apply Z.eqb_neq in Hl. now rewrite Hl. }
      read_tables. lia.
    - apply orb_false_iff in Hend. rewrite !Z.eqb_neq in Hend.
      pose proof (is_leap_digits n400 n100 n4 n1
                    ltac:(lia) ltac:(lia) ltac:(lia)) as Hleap.
      pose proof (days_before_year_digits n400 n100 n4 n1
                    ltac:(lia) ltac:(lia) ltac:(lia)) as Hdby.
      rewrite <- Hleap.
      set (y := n400 * 400 + 1 + (n100 * 100 + n4 * 4 + n1)) in *.
      pose proof (month_day_of_spec y r1 Hr) as Hmd.
      destruct (month_day_of (is_leap y) r1) as [m d].
      eexists. split; [reflexivity | ].
      unfold toordinal, ymd2ord. cbn [year month day].
      rewrite Hdby. subst y. lia. }
  destruct Hmain as (dt & -> & Hy1 & Hm & Hd & Hord).
  split; [ | exact Hord].
  (* the year is at most 9999: later years start after MAXORDINAL *)
  assert (Hy9 : year dt <= 9999).
  { destruct (Z_le_gt_dec (year dt) 9999) as [ | Hbig]; [assumption | ].
    pose proof (days_before_year_mono 10000 (year dt) ltac:(lia)) as Hmono.
    pose proof (month_span (year dt) (month dt) Hm) as (Hb0 & _).
    assert (H10k : days_before_year 10000 = 3652059) by (vm_compute; reflexivity).
    unfold toordinal, ymd2ord, MAXORDINAL in *. lia. }
  unfold valid_date, MINYEAR, MAXYEAR. lia.
Qed.

Lemma date_add_spec (d t : date) (n : Z) :
  date_add d n = Some t ->
  valid_date t /\ toordinal t = toordinal d + n.
Proof.
  unfold date_add, fromordinal.
  destruct (_ && _) eqn:Hrange; [ | discriminate].
  intros [= <-]. apply andb_true_iff in Hrange as [Hlo Hhi].
  apply Z.ltb_lt in Hlo. apply Z.leb_le in Hhi.
  apply ord2ymd_spec. lia.
Qed.

End DateFacts.

(** ** The day-number calculator *)

Section CycleDay.

Lemma clamp_cycle_length_range (value : Z) :
  MIN_CYCLE_LENGTH <= clamp_cycle_length value <= MAX_CYCLE_LENGTH.
Proof. unfold clamp_cycle_length, MIN_CYCLE_LENGTH, MAX_CYCLE_LENGTH. lia. Qed.

Lemma clamp_cycle_length_cases (value : Z) :
  (value < 21 /\ clamp_cycle_length value = 21)
  \/ (21 <= value <= 35 /\ clamp_cycle_length value = value)
  \/ (35 < value /\ clamp_cycle_length value = 35).
Proof. unfold clamp_cycle_length, MIN_CYCLE_LENGTH, MAX_CYCLE_LENGTH. lia. Qed.

Lemma clamp_cycle_length_idempotent (value : Z) :
  clamp_cycle_length (clamp_cycle_length value) = clamp_cycle_length value.
Proof. unfold clamp_cycle_length, MIN_CYCLE_LENGTH, MAX_CYCLE_LENGTH. lia. Qed.

(** Which branch [get_cycle_day] takes on two dates. *)
Lemma get_cycle_day_dates (target anchor : date) (cycle_length : Z) :
  get_cycle_day (PyDate target) (PyDate anchor) cycle_length =
  if cycle_length <=? 0 then
    Raise (ValueError "cycle_length must be a positive integer.")
  else if date_lt target anchor then
    Raise (ValueError "Target date can not be before the last period start date.")
  else Ok (days_between target anchor mod clamp_cycle_length cycle_length + 1).
Proof. reflexivity. Qed.

Lemma get_cycle_day_ok (target anchor : date) (cycle_length : Z) :
  0 < cycle_length ->
  date_lt target anchor = false ->
  get_cycle_day (PyDate target) (PyDate anchor) cycle_length
  = Ok (days_between target anchor mod clamp_cycle_length cycle_length + 1).
Proof.
  intros Hpos Hlt. rewrite get_cycle_day_dates, Hlt.
  destruct (Z.leb_spec cycle_length 0); [lia | reflexivity].
Qed.

Lemma get_cycle_day_range (target anchor : pyobj) (cycle_length d : Z) :
  get_cycle_day target anchor cycle_length = Ok d ->
  1 <= d <= clamp_cycle_length cycle_length.
Proof.
  pose proof (clamp_cycle_length_range cycle_length) as Hc.
  unfold MIN_CYCLE_LENGTH, MAX_CYCLE_LENGTH in Hc.
  destruct target, anchor; try discriminate.
  rewrite get_cycle_day_dates.
  destruct (_ <=? _); [discriminate | ].
  destruct (date_lt _ _); [discriminate | ].
  intros [= <-].
  pose proof (Z.mod_pos_bound (days_between d0 d1)
                (clamp_cycle_length cycle_length) ltac:(lia)).
  lia.
Qed.

(** C1: for a target on or after the anchor and a positive cycle
    length, [get_cycle_day] returns [(diff mod clamped) + 1] where
    [diff] is the whole-day difference and [clamped] the cycle length
    clamped into [21, 35]; the result lies in [1, clamped]; a cycle
    length outside [21, 35] is not rejected but replaced by the nearer
    bound; and [diff] is non-negative on well-formed dates. *)
Theorem get_cycle_day_formula (target anchor : date) (cycle_length : Z) :
  0 < cycle_length ->
  date_lt target anchor = false ->
  get_cycle_day (PyDate target) (PyDate anchor) cycle_length
  = Ok (days_between target anchor mod clamp_cycle_length cycle_length + 1)
  /\ 1 <= days_between target anchor mod clamp_cycle_length cycle_length + 1
       <= clamp_cycle_length cycle_length
  /\ 21 <= clamp_cycle_length cycle_length <= 35
  /\ (cycle_length < 21 -> clamp_cycle_length cycle_length = 21)
  /\ (35 < cycle_length -> clamp_cycle_length cycle_length = 35)
  /\ (21 <= cycle_length <= 35 -> clamp_cycle_length cycle_length = cycle_length)
  /\ (valid_date target -> valid_date anchor ->
      0 <= days_between target anchor).
Proof.
  intros Hpos Hlt.
  pose proof (get_cycle_day_ok target anchor cycle_length Hpos Hlt) as Hrun.
  split; [exact Hrun | ].
  split; [exact (get_cycle_day_range _ _ _ _ Hrun) | ].
  pose proof (clamp_cycle_length_cases cycle_length) as Hc.
  repeat split; try lia.
  intros Ht Ha. unfold days_between.
  pose proof (toordinal_le target anchor Ht Ha Hlt). lia.
Qed.

Lemma get_cycle_day_formula_witness :
  date_lt (mkdate 2024 3 10) (mkdate 2024 2 15) = false
  /\ get_cycle_day (PyDate (mkdate 2024 3 10)) (PyDate (mkdate 2024 2 15)) 40
     = Ok (days_between (mkdate 2024 3 10) (mkdate 2024 2 15)
             mod clamp_cycle_length 40 + 1).
Proof.
  split; [reflexivity | ].
  apply (get_cycle_day_formula (mkdate 2024 3 10) (mkdate 2024 2 15) 40);
    [lia | reflexivity].
Defined.

(** C7: a target strictly before the anchor makes [get_cycle_day] raise
    [ValueError] with the message "Target date can not be before the
    last period start date."; no day number is returned. *)
Theorem get_cycle_day_target_before_anchor
    (target anchor : date) (cycle_length : Z) :
  0 < cycle_length ->
  date_lt target anchor = true ->
  get_cycle_day (PyDate target) (PyDate anchor) cycle_length
  = Raise (ValueError "Target date can not be before the last period start date.")
  /\ (forall d, get_cycle_day (PyDate target) (PyDate anchor) cycle_length <> Ok d).
Proof.
  intros Hpos Hlt.
  assert (Hrun : get_cycle_day (PyDate target) (PyDate anchor) cycle_length
    = Raise (ValueError "Target date can not be before the last period start date.")).
  { rewrite get_cycle_day_dates, Hlt.
    destruct (Z.leb_spec cycle_length 0); [lia | reflexivity]. }
  split; [exact Hrun | ].
  intros d Hd. rewrite Hrun in Hd. discriminate.
Qed.

Lemma get_cycle_day_target_before_anchor_witness :
  date_lt (mkdate 2024 2 14) (mkdate 2024 2 15) = true
  /\ get_cycle_day (PyDate (mkdate 2024 2 14)) (PyDate (mkdate 2024 2 15)) 28
     = Raise (ValueError "Target date can not be before the last period start date.").
Proof.
  split; [reflexivity | ].
  apply (get_cycle_day_target_before_anchor
           (mkdate 2024 2 14) (mkdate 2024 2 15) 28); [lia | reflexivity].
Defined.

(** A target a whole number of clamped cycles after the anchor is day 1. *)
Lemma get_cycle_day_whole_cycles (target anchor : date) (cycle_length k : Z) :
  valid_date target -> valid_date anchor ->
  0 < cycle_length -> 0 <= k ->
  days_between target anchor = k * clamp_cycle_length cycle_length ->
  get_cycle_day (PyDate target) (PyDate anchor) cycle_length = Ok 1.
Proof.
  intros Ht Ha Hpos Hk Hdiff.
  pose proof (clamp_cycle_length_range cycle_length) as Hc.
  unfold MIN_CYCLE_LENGTH in Hc.
  assert (Hlt : date_lt target anchor = false).
  { apply date_lt_false_of_ordinal; try assumption.
    unfold days_between in Hdiff. nia. }
  rewrite get_cycle_day_dates, Hlt, Hdiff.
  destruct (Z.leb_spec cycle_length 0); [lia | ].
  rewrite Z.mod_mul by lia. reflexivity.
Qed.

(** C4: periodicity and identity.  For every anchor date, positive
    cycle length with clamped value [L], and [k >= 0], the date
    [anchor + timedelta(days = k * L)], whenever it exists (it does
    unless it falls after 9999-12-31), is cycle day 1; and the anchor
    itself is cycle day 1. *)
Theorem get_cycle_day_periodic (anchor : date) (cycle_length k : Z) :
  valid_date anchor ->
  0 < cycle_length ->
  0 <= k ->
  (forall target,
      date_add anchor (k * clamp_cycle_length cycle_length) = Some target ->
      get_cycle_day (PyDate target) (PyDate anchor) cycle_length = Ok 1)
  /\ (toordinal anchor + k * clamp_cycle_length cycle_length <= MAXORDINAL ->
      exists target,
        date_add anchor (k * clamp_cycle_length cycle_length) = Some target)
  /\ get_cycle_day (PyDate anchor) (PyDate anchor) cycle_length = Ok 1.
Proof.
  intros Ha Hpos Hk.
  pose proof (clamp_cycle_length_range cycle_length) as Hc.
  unfold MIN_CYCLE_LENGTH in Hc.
  split; [ | split].
  - intros target Hadd. apply date_add_spec in Hadd as [Ht Hord].
    apply (get_cycle_day_whole_cycles target anchor cycle_length k);
      try assumption.
    unfold days_between. lia.
  - intros Hmax. unfold date_add.
    destruct Ha as (Hy & Hm & Hd).
    pose proof (month_span (year anchor) (month anchor) Hm) as (Hb0 & _).
    pose proof (days_before_year_mono 1 (year anchor) ltac:(unfold MINYEAR in Hy; lia)) as Hy1.
    change (days_before_year 1) with 0 in Hy1.
    assert (Hord : 0 < toordinal anchor) by (unfold toordinal, ymd2ord; lia).
    destruct (Z.ltb_spec 0 (toordinal anchor + k * clamp_cycle_length cycle_length));
      [ | nia].
    destruct (Z.leb_spec (toordinal anchor + k * clamp_cycle_length cycle_length) MAXORDINAL);
      [ | lia].
    eexists. reflexivity.
  - apply (get_cycle_day_whole_cycles anchor anchor cycle_length 0);
      try assumption; [lia | unfold days_between; lia].
Qed.

Lemma get_cycle_day_periodic_witness :
  date_add (mkdate 2024 2 15) (3 * clamp_cycle_length 28)
  = Some (mkdate 2024 5 9)
  /\ get_cycle_day (PyDate (mkdate 2024 5 9)) (PyDate (mkdate 2024 2 15)) 28
     = Ok 1.
Proof.
  split; [reflexivity | ].
  assert (Hv : valid_date (mkdate 2024 2 15))
    by (apply valid_dateb_spec; reflexivity).
  destruct (get_cycle_day_periodic (mkdate 2024 2 15) 28 3 Hv
              ltac:(lia) ltac:(lia)) as (Hper & _ & _).
  apply Hper. reflexivity.
Defined.

End CycleDay.

(** ** The phase classifier *)

Section CyclePhase.

(** Decides one integer comparison of the goal, keeping its meaning
    as a hypothesis. *)
Ltac phase_test :=
  match goal with
  | |- context [?x <=? ?y] => destruct (Z.leb_spec x y)
  | |- context [?x >=? ?y] => destruct (Z.geb_spec x y)
  | |- context [?x >? ?y] => destruct (Z.gtb_spec x y)
  end.

(** Walks through every test of [get_cycle_phase]. *)
Ltac phase_tests :=
  unfold get_cycle_phase; repeat phase_test; cbn [orb andb].

Lemma phase_names_distinct :
  "menstrual" <> "luteal" /\ "menstrual" <> "ovulatory"
  /\ "menstrual" <> "follicular" /\ "luteal" <> "ovulatory"
  /\ "luteal" <> "follicular" /\ "ovulatory" <> "follicular".
Proof. repeat split; discriminate. Qed.

Lemma valid_phases_elem (p : string) :
  p ∈ VALID_PHASES <->
  p = "menstrual" \/ p = "follicular" \/ p = "ovulatory" \/ p = "luteal".
Proof.
  unfold VALID_PHASES. rewrite !elem_of_union, !elem_of_singleton. tauto.
Qed.

(** The classifier only fails on its two precondition checks. *)
Lemma get_cycle_phase_total
    (cycle_day cycle_length period_length luteal_phase_length : Z) :
  0 < cycle_day -> 0 < cycle_length -> 0 < period_length ->
  0 < luteal_phase_length -> period_length <= cycle_length ->
  exists p,
    get_cycle_phase cycle_day cycle_length period_length luteal_phase_length
    = Ok p /\ p ∈ VALID_PHASES.
Proof.
  intros Hd Hc Hp Hl Hle.
  phase_tests; try lia; eexists; (split; [reflexivity | ]);
    apply valid_phases_elem; auto.
Qed.

Lemma get_cycle_phase_period_longer
    (cycle_day cycle_length period_length luteal_phase_length : Z) :
  0 < cycle_day -> 0 < cycle_length -> 0 < period_length ->
  0 < luteal_phase_length -> cycle_length < period_length ->
  get_cycle_phase cycle_day cycle_length period_length luteal_phase_length
  = Raise (ValueError "Period length cannot be longer than cycle length.").
Proof. intros Hd Hc Hp Hl Hgt. phase_tests; first [lia | reflexivity]. Qed.

(** C2: on inputs that satisfy the preconditions, [get_cycle_phase]
    returns one of the four phase names, chosen by the first matching
    test: menstrual if [cycle_day <= period_length]; else luteal if
    [cycle_day >= clamped - luteal]; else ovulatory if
    [clamped - luteal - 1 <= cycle_day <= clamped - luteal + 1]; else
    follicular. *)
Theorem get_cycle_phase_first_match
    (cycle_day cycle_length period_length luteal_phase_length : Z) :
  0 < cycle_day -> 0 < cycle_length -> 0 < period_length ->
  0 < luteal_phase_length -> period_length <= cycle_length ->
  exists p,
    get_cycle_phase cycle_day cycle_length period_length luteal_phase_length
    = Ok p
    /\ p ∈ VALID_PHASES
    /\ (cycle_day <= period_length -> p = "menstrual")
    /\ (period_length < cycle_day ->
        clamp_cycle_length cycle_length - luteal_phase_length <= cycle_day ->
        p = "luteal")
    /\ (period_length < cycle_day ->
        cycle_day < clamp_cycle_length cycle_length - luteal_phase_length ->
        clamp_cycle_length cycle_length - luteal_phase_length - 1 <= cycle_day
          <= clamp_cycle_length cycle_length - luteal_phase_length + 1 ->
        p = "ovulatory")
    /\ (period_length < cycle_day ->
        cycle_day < clamp_cycle_length cycle_length - luteal_phase_length ->
        ~ (clamp_cycle_length cycle_length - luteal_phase_length - 1 <= cycle_day
           <= clamp_cycle_length cycle_length - luteal_phase_length + 1) ->
        p = "follicular").
Proof.
  intros Hd Hc Hp Hl Hle.
  phase_tests; try lia; eexists; (split; [reflexivity | ]);
    (split; [apply valid_phases_elem; auto | ]);
    repeat split; intros; first [reflexivity | lia].
Qed.

Lemma get_cycle_phase_first_match_witness :
  exists p,
    get_cycle_phase 13 28 5 14 = Ok p
    /\ p ∈ VALID_PHASES
    /\ (13 <= 5 -> p = "menstrual")
    /\ (5 < 13 -> clamp_cycle_length 28 - 14 <= 13 -> p = "luteal")
    /\ (5 < 13 -> 13 < clamp_cycle_length 28 - 14 ->
        clamp_cycle_length 28 - 14 - 1 <= 13 <= clamp_cycle_length 28 - 14 + 1 ->
        p = "ovulatory")
    /\ (5 < 13 -> 13 < clamp_cycle_length 28 - 14 ->
        ~ (clamp_cycle_length 28 - 14 - 1 <= 13
           <= clamp_cycle_length 28 - 14 + 1) ->
        p = "follicular").
Proof.
  apply (get_cycle_phase_first_match 13 28 5 14); lia.
Defined.

(** C6: with all four arguments positive, a period longer than the
    cycle makes [get_cycle_phase] raise [ValueError]; no phase is
    returned. *)
Theorem get_cycle_phase_period_too_long
    (cycle_day cycle_length period_length luteal_phase_length : Z) :
  0 < cycle_day -> 0 < cycle_length -> 0 < period_length ->
  0 < luteal_phase_length -> cycle_length < period_length ->
  get_cycle_phase cycle_day cycle_length period_length luteal_phase_length
  = Raise (ValueError "Period length cannot be longer than cycle length.")
  /\ (forall p,
        get_cycle_phase cycle_day cycle_length period_length
          luteal_phase_length <> Ok p).
Proof.
  intros Hd Hc Hp Hl Hgt.
  pose proof (get_cycle_phase_period_longer cycle_day cycle_length
                period_length luteal_phase_length Hd Hc Hp Hl Hgt) as Hrun.
  split; [exact Hrun | ].
  intros p Hp'. rewrite Hrun in Hp'. discriminate.
Qed.

Lemma get_cycle_phase_period_too_long_witness :
  get_cycle_phase 3 28 30 14
  = Raise (ValueError "Period length cannot be longer than cycle length.").
Proof.
  apply (get_cycle_phase_period_too_long 3 28 30 14); lia.
Defined.

(** C9, amended: with the default luteal length 14 and the
    preconditions met, [get_cycle_phase] answers ovulatory exactly when
    the day is [clamped - 15] and lies after the period.  The two upper
    days of the nominal window, [clamped - 14] and [clamped - 13], pass
    the earlier luteal test, so they are never ovulatory: they are
    luteal when they lie after the period and menstrual otherwise. *)
Theorem ovulatory_window_single_day
    (cycle_day cycle_length period_length : Z) :
  0 < cycle_day -> 0 < cycle_length -> 0 < period_length ->
  period_length <= cycle_length ->
  (get_cycle_phase cycle_day cycle_length period_length
     DEFAULT_LUTEAL_PHASE_LENGTH = Ok "ovulatory"
   <-> cycle_day = clamp_cycle_length cycle_length - 15
       /\ period_length < cycle_day)
  /\ (clamp_cycle_length cycle_length - 14 <= cycle_day
        <= clamp_cycle_length cycle_length - 13 ->
      clamp_cycle_length cycle_length - DEFAULT_LUTEAL_PHASE_LENGTH
        <= cycle_day
      /\ (period_length < cycle_day ->
          get_cycle_phase cycle_day cycle_length period_length
            DEFAULT_LUTEAL_PHASE_LENGTH = Ok "luteal")
      /\ (cycle_day <= period_length ->
          get_cycle_phase cycle_day cycle_length period_length
            DEFAULT_LUTEAL_PHASE_LENGTH = Ok "menstrual")).
Proof.
  intros Hd Hc Hp Hle. unfold DEFAULT_LUTEAL_PHASE_LENGTH.
  split.
  - split.
    + phase_tests; try lia; intros Hrun; discriminate Hrun.
    + intros [Hday Hafter]. phase_tests; first [lia | reflexivity].
  - intros Hupper. split; [lia | ].
    split; intros Hcmp; phase_tests; first [lia | reflexivity].
Qed.

Lemma ovulatory_window_single_day_witness :
  get_cycle_phase 13 28 5 DEFAULT_LUTEAL_PHASE_LENGTH = Ok "ovulatory"
  <-> 13 = clamp_cycle_length 28 - 15 /\ 5 < 13.
Proof.
  apply (ovulatory_window_single_day 13 28 5); lia.
Defined.

(** C9 as first stated fails: day 14 of a 28-day cycle is the middle
    day of the nominal window 13..15 and passes the luteal test, yet
    with a 14-day period it is classified menstrual, not luteal. *)
Lemma ovulatory_window_upper_day_menstrual :
  (0 < 14 /\ 0 < 28 /\ 0 < 14 /\ 14 <= 28)
  /\ clamp_cycle_length 28 - 14 <= 14 <= clamp_cycle_length 28 - 13
  /\ get_cycle_phase 14 28 14 DEFAULT_LUTEAL_PHASE_LENGTH = Ok "menstrual"
  /\ get_cycle_phase 14 28 14 DEFAULT_LUTEAL_PHASE_LENGTH <> Ok "luteal".
Proof.
  split; [lia | ]. split; [vm_compute; intuition discriminate | ].
  split; [reflexivity | discriminate].
Qed.

(** C10: the period-length check compares against the raw cycle length,
    not the clamped one.  With [cycle_length > 35] and
    [35 < period_length <= cycle_length] the call succeeds although the
    period exceeds the clamped length 35, and every day up to the
    period length, so every day 1..35 and every day [get_cycle_day]
    yields for that cycle length, is menstrual. *)
Theorem period_check_uses_raw_cycle_length
    (cycle_day cycle_length period_length luteal_phase_length : Z) :
  0 < cycle_day -> 0 < luteal_phase_length ->
  35 < cycle_length -> 35 < period_length ->
  period_length <= cycle_length ->
  clamp_cycle_length cycle_length < period_length
  /\ (exists p,
        get_cycle_phase cycle_day cycle_length period_length
          luteal_phase_length = Ok p)
  /\ (cycle_day <= period_length ->
      get_cycle_phase cycle_day cycle_length period_length
        luteal_phase_length = Ok "menstrual")
  /\ (cycle_day <= 35 ->
      get_cycle_phase cycle_day cycle_length period_length
        luteal_phase_length = Ok "menstrual")
  /\ (forall target anchor d,
        get_cycle_day target anchor cycle_length = Ok d ->
        1 <= d <= 35
        /\ get_cycle_phase d cycle_length period_length luteal_phase_length
           = Ok "menstrual").
Proof.
  intros Hd Hl Hc Hp Hle.
  pose proof (clamp_cycle_length_cases cycle_length) as Hclamp.
  assert (Hmen : forall d, 0 < d -> d <= period_length ->
            get_cycle_phase d cycle_length period_length luteal_phase_length
            = Ok "menstrual").
  { intros d Hd0 Hdp. phase_tests; first [lia | reflexivity]. }
  split; [lia | ].
  split.
  { destruct (get_cycle_phase_total cycle_day cycle_length period_length
                luteal_phase_length) as (p & Hrun & _); try lia.
    now exists p. }
  split; [intros; apply Hmen; lia | ].
  split; [intros; apply Hmen; lia | ].
  intros target anchor d Hday.
  apply get_cycle_day_range in Hday.
  split; [lia | apply Hmen; lia].
Qed.

Lemma period_check_uses_raw_cycle_length_witness :
  clamp_cycle_length 40 < 38
  /\ get_cycle_phase 35 40 38 14 = Ok "menstrual".
Proof.
  destruct (period_check_uses_raw_cycle_length 35 40 38 14
              ltac:(lia) ltac:(lia) ltac:(lia) ltac:(lia) ltac:(lia))
    as (Hraw & _ & Hmen & _).
  split; [exact Hraw | apply Hmen; lia].
Defined.

End CyclePhase.

(** ** Phase details *)

Section PhaseDetailsFacts.

Lemma phase_details_table :
  PHASE_DETAILS !! "menstrual" = Some menstrual_details
  /\ PHASE_DETAILS !! "follicular" = Some follicular_details
  /\ PHASE_DETAILS !! "ovulatory" = Some ovulatory_details
  /\ PHASE_DETAILS !! "luteal" = Some luteal_details.
Proof. repeat split; vm_compute; reflexivity. Qed.

Lemma phase_details_populated :
  populated menstrual_details /\ populated follicular_details
  /\ populated ovulatory_details /\ populated luteal_details.
Proof. unfold populated. repeat split; discriminate. Qed.

(** A known phase is looked up without a diagnostic. *)
Lemma get_phase_details_known (phase : string) :
  phase ∈ VALID_PHASES ->
  exists d,
    PHASE_DETAILS !! phase = Some d
    /\ get_phase_details phase = ([], Ok d)
    /\ populated d.
Proof.
  intros Hin. destruct phase_details_populated as (Hm & Hf & Ho & Hl).
  apply valid_phases_elem in Hin as [-> | [-> | [-> | ->]]];
    eexists; (split; [vm_compute; reflexivity | ]);
    (split; [vm_compute; reflexivity | assumption]).
Qed.

(** Any other text falls back to the follicular record, with a warning. *)
Lemma get_phase_details_unknown (phase : string) :
  phase ∉ VALID_PHASES ->
  get_phase_details phase
  = ([Warning ("Unexpected phase encountered: " +:+ phase)],
     Ok follicular_details).
Proof.
  intros Hnot. unfold get_phase_details.
  rewrite bool_decide_eq_true_2 by assumption.
  unfold dict_get. destruct phase_details_table as (_ & -> & _).
  reflexivity.
Qed.

Lemma get_phase_details_ok (phase : string) :
  exists d, outcome (get_phase_details phase) = Ok d /\ populated d.
Proof.
  destruct (decide (phase ∈ VALID_PHASES)) as [Hin | Hnot].
  - destruct (get_phase_details_known phase Hin) as (d & _ & -> & Hpop).
    now exists d.
  - rewrite (get_phase_details_unknown phase Hnot).
    exists follicular_details. split; [reflexivity | ].
    apply phase_details_populated.
Qed.

(** C8: [get_phase_details] never fails.  Each of the four phase names
    yields its own record of the static table, all four text fields
    non-empty, and every other string yields the follicular record (and
    a warning) instead of an exception. *)
Theorem get_phase_details_total (phase : string) :
  (exists d, outcome (get_phase_details phase) = Ok d /\ populated d)
  /\ (get_phase_details "menstrual" = ([], Ok menstrual_details)
      /\ get_phase_details "follicular" = ([], Ok follicular_details)
      /\ get_phase_details "ovulatory" = ([], Ok ovulatory_details)
      /\ get_phase_details "luteal" = ([], Ok luteal_details))
  /\ (PHASE_DETAILS !! "menstrual" = Some menstrual_details
      /\ PHASE_DETAILS !! "follicular" = Some follicular_details
      /\ PHASE_DETAILS !! "ovulatory" = Some ovulatory_details
      /\ PHASE_DETAILS !! "luteal" = Some luteal_details)
  /\ (populated menstrual_details /\ populated follicular_details
      /\ populated ovulatory_details /\ populated luteal_details)
  /\ (phase ∈ VALID_PHASES ->
      exists d,
        PHASE_DETAILS !! phase = Some d
        /\ get_phase_details phase = ([], Ok d)
        /\ populated d)
  /\ (phase ∉ VALID_PHASES ->
      get_phase_details phase
      = ([Warning ("Unexpected phase encountered: " +:+ phase)],
         Ok follicular_details)).
Proof.
  split; [apply get_phase_details_ok | ].
  split; [repeat split; vm_compute; reflexivity | ].
  split; [apply phase_details_table | ].
  split; [apply phase_details_populated | ].
  split; [apply get_phase_details_known | apply get_phase_details_unknown].
Qed.

Lemma get_phase_details_total_witness :
  ("Luteal" ∉ VALID_PHASES)
  /\ get_phase_details "Luteal"
     = ([Warning ("Unexpected phase encountered: " +:+ "Luteal")],
        Ok follicular_details).
Proof.
  assert (Hnot : "Luteal" ∉ VALID_PHASES).
  { rewrite valid_phases_elem. intuition discriminate. }
  split; [exact Hnot | ].
  destruct (get_phase_details_total "Luteal") as (_ & _ & _ & _ & _ & Hother).
  exact (Hother Hnot).
Defined.

End PhaseDetailsFacts.

(** ** The orchestrating [get_day_info] *)

Section DayInfoFacts.

(** [get_day_info] once its own three checks have passed. *)
Lemma get_day_info_guarded (target anchor : date)
    (cycle_length period_length : Z) (include_details : bool) :
  0 < cycle_length -> 0 < period_length ->
  date_lt target anchor = false ->
  get_day_info (PyDate target) (PyDate anchor) cycle_length period_length
    include_details
  = try_except
      (let* cycle_day :=
         lift (get_cycle_day (PyDate target) (PyDate anchor) cycle_length) in
       let* phase :=
         lift (get_cycle_phase cycle_day cycle_length period_length
                 DEFAULT_LUTEAL_PHASE_LENGTH) in
       let day_info := mkDayInfo target cycle_day phase None in
       let* day_info :=
         (if include_details then
            let* d := get_phase_details phase in
            ret (set_details day_info (model_dump d))
          else ret day_info) in
       emit (InfoResult "get_day_info result: " day_info) >>
       ret day_info)
      day_info_handler.
Proof.
  intros Hc Hp Hlt. unfold get_day_info. rewrite Hlt.
  destruct (Z.leb_spec cycle_length 0); [lia | ].
  destruct (Z.leb_spec period_length 0); [lia | ].
  reflexivity.
Qed.

(** C5: the worked example.  For 2024-03-10 with anchor 2024-02-15,
    cycle length 28, period length 5 and no details, [get_day_info]
    succeeds with cycle day 25 (the dates are 24 days apart and
    24 mod 28 + 1 = 25), phase luteal (25 >= 28 - 14) and the details
    field left empty. *)
Theorem get_day_info_2024_03_10 :
  days_between (mkdate 2024 3 10) (mkdate 2024 2 15) = 24
  /\ clamp_cycle_length 28 = 28
  /\ get_cycle_day (PyDate (mkdate 2024 3 10)) (PyDate (mkdate 2024 2 15)) 28
     = Ok 25
  /\ get_cycle_phase 25 28 5 DEFAULT_LUTEAL_PHASE_LENGTH = Ok "luteal"
  /\ outcome (get_day_info (PyDate (mkdate 2024 3 10))
                (PyDate (mkdate 2024 2 15)) 28 5 false)
     = Ok {| Models.date := mkdate 2024 3 10; cycleDay := 25;
             phase := "luteal"; details := None |}.
Proof.
  assert (Hdiff : days_between (mkdate 2024 3 10) (mkdate 2024 2 15) = 24)
    by reflexivity.
  assert (Hday : get_cycle_day (PyDate (mkdate 2024 3 10))
                   (PyDate (mkdate 2024 2 15)) 28 = Ok 25).
  { rewrite get_cycle_day_dates, Hdiff. reflexivity. }
  assert (Hphase : get_cycle_phase 25 28 5 DEFAULT_LUTEAL_PHASE_LENGTH
                   = Ok "luteal") by reflexivity.
  split; [exact Hdiff | ]. split; [reflexivity | ].
  split; [exact Hday | ]. split; [exact Hphase | ].
  rewrite get_day_info_guarded by (reflexivity || lia).
  rewrite Hday. cbn [lift bind]. rewrite Hphase. reflexivity.
Qed.

(** What the guarded block turns an inner failure into. *)
Lemma try_except_raise {A : Type} (m : Eff A) (e : exn) (h : exn -> exn) :
  outcome m = Raise e -> outcome (try_except m h) = Raise (h e).
Proof.
  destruct m as [l [a | e']]; cbn; [discriminate | ].
  intros [= ->]. reflexivity.
Qed.

Lemma day_info_handler_cases (e : exn) :
  day_info_handler e
  = if is_ValueError e
    then ValueError ("Error calculating day info: " +:+ exn_str e)
    else Exception ("An unexpected error occurred: " +:+ exn_str e).
Proof. destruct e; reflexivity. Qed.

(** C3, amended: the three checks [get_day_info] makes itself raise
    [ValueError] with the bare message, no day-info prefix.  An error
    of the inner [get_cycle_day] or [get_cycle_phase] call is re-raised
    as a [ValueError] whose message starts "Error calculating day
    info: ", and any other exception raised inside the guarded block
    leaves it as a generic [Exception] "An unexpected error
    occurred: ...". *)
Theorem get_day_info_errors (target_date anchor_date : pyobj)
    (cycle_length period_length : Z) (include_details : bool) :
  (isinstance_date target_date = false \/ isinstance_date anchor_date = false ->
   get_day_info target_date anchor_date cycle_length period_length
     include_details
   = ([], Raise (ValueError
        "target_date and last_period_start_date must be date objects.")))
  /\ (forall target anchor,
        target_date = PyDate target -> anchor_date = PyDate anchor ->
        (cycle_length <= 0 \/ period_length <= 0 ->
         get_day_info target_date anchor_date cycle_length period_length
           include_details
         = ([], Raise (ValueError
              "cycle_length and period_length must be positive integers.")))
        /\ (0 < cycle_length -> 0 < period_length ->
            date_lt target anchor = true ->
            get_day_info target_date anchor_date cycle_length period_length
              include_details
            = ([], Raise (ValueError
                 "Target date can not be before the last period start date.")))
        /\ (0 < cycle_length -> 0 < period_length ->
            date_lt target anchor = false ->
            (forall e,
                get_cycle_day target_date anchor_date cycle_length = Raise e
                \/ (exists d,
                      get_cycle_day target_date anchor_date cycle_length = Ok d
                      /\ get_cycle_phase d cycle_length period_length
                           DEFAULT_LUTEAL_PHASE_LENGTH = Raise e) ->
                get_day_info target_date anchor_date cycle_length
                  period_length include_details
                = ([], Raise (day_info_handler e)))
            /\ (cycle_length < period_length ->
                get_day_info target_date anchor_date cycle_length
                  period_length include_details
                = ([], Raise (ValueError
                     ("Error calculating day info: "
                      +:+ "Period length cannot be longer than cycle length."))))))
  /\ (forall msg,
        day_info_handler (ValueError msg)
        = ValueError ("Error calculating day info: " +:+ msg))
  /\ (forall e,
        is_ValueError e = false ->
        day_info_handler e
        = Exception ("An unexpected error occurred: " +:+ exn_str e))
  /\ (forall (m : Eff DayInfo) e,
        outcome m = Raise e ->
        outcome (try_except m day_info_handler) = Raise (day_info_handler e)).
Proof.
  split.
  { intros Hnot. destruct target_date, anchor_date; cbn in Hnot;
      first [reflexivity | destruct Hnot; discriminate]. }
  split.
  { intros target anchor -> ->.
    assert (Hinner : 0 < cycle_length -> 0 < period_length ->
              date_lt target anchor = false ->
              forall e,
                get_cycle_day (PyDate target) (PyDate anchor) cycle_length
                = Raise e
                \/ (exists d,
                      get_cycle_day (PyDate target) (PyDate anchor) cycle_length
                      = Ok d
                      /\ get_cycle_phase d cycle_length period_length
                           DEFAULT_LUTEAL_PHASE_LENGTH = Raise e) ->
                get_day_info (PyDate target) (PyDate anchor) cycle_length
                  period_length include_details
                = ([], Raise (day_info_handler e))).
    { intros Hc Hp Hlt e Hfail.
      rewrite get_day_info_guarded by assumption.
      destruct Hfail as [-> | (d & -> & Hphase)]; [reflexivity | ].
      cbn [lift bind]. rewrite Hphase. reflexivity. }
    split; [ | split].
    - intros Hbad. unfold get_day_info.
      destruct (Z.leb_spec cycle_length 0), (Z.leb_spec period_length 0);
        first [reflexivity | lia].
    - intros Hc Hp Hlt. unfold get_day_info. rewrite Hlt.
      destruct (Z.leb_spec cycle_length 0), (Z.leb_spec period_length 0);
        first [reflexivity | lia].
    - intros Hc Hp Hlt. split; [exact (Hinner Hc Hp Hlt) | ].
      intros Hlong.
      pose proof (get_cycle_day_ok target anchor cycle_length Hc Hlt) as Hday.
      pose proof (get_cycle_day_range _ _ _ _ Hday) as Hrange.
      rewrite (Hinner Hc Hp Hlt
                 (ValueError "Period length cannot be longer than cycle length.")).
      + reflexivity.
      + right. eexists. split; [exact Hday | ].
        apply get_cycle_phase_period_longer; unfold DEFAULT_LUTEAL_PHASE_LENGTH; lia. }
  split; [reflexivity | ].
  split; [intros e He; rewrite day_info_handler_cases, He; reflexivity | ].
  intros m e. apply try_except_raise.
Qed.

Lemma get_day_info_errors_witness :
  get_day_info (PyDate (mkdate 2024 3 10)) (PyDate (mkdate 2024 2 15)) 28 30
    false
  = ([], Raise (ValueError
       ("Error calculating day info: "
        +:+ "Period length cannot be longer than cycle length."))).
Proof.
  destruct (get_day_info_errors (PyDate (mkdate 2024 3 10))
              (PyDate (mkdate 2024 2 15)) 28 30 false)
    as (_ & Hdates & _).
  destruct (Hdates (mkdate 2024 3 10) (mkdate 2024 2 15) eq_refl eq_refl)
    as (_ & _ & Hguarded).
  destruct (Hguarded ltac:(lia) ltac:(lia) eq_refl) as (_ & Hlong).
  apply Hlong. lia.
Defined.

(** C3 as first stated fails: a non-positive cycle length is refused by
    the first checks of [get_day_info] with the bare message, which
    neither starts with the day-info prefix nor mentions day info. *)
Lemma get_day_info_step1_error_not_prefixed :
  get_day_info (PyDate (mkdate 2024 3 10)) (PyDate (mkdate 2024 2 15)) 0 5
    false
  = ([], Raise (ValueError
       "cycle_length and period_length must be positive integers."))
  /\ String.prefix "Error calculating day info: "
       "cycle_length and period_length must be positive integers." = false
  /\ String.index 0 "day info"
       "cycle_length and period_length must be positive integers." = None.
Proof. repeat split. Qed.



(** X2: when the checks pass ([cycle_length] and [period_length]
    positive, the period no longer than the cycle, the target not
    before the anchor) [get_day_info] succeeds: its record carries the
    target date, the day [get_cycle_day] computes, the phase
    [get_cycle_phase] gives for that day with luteal length 14, and the
    dumped details of that phase exactly when they were asked for. *)
Theorem get_day_info_success (target anchor : date)
    (cycle_length period_length : Z) (include_details : bool) :
  0 < cycle_length -> 0 < period_length ->
  period_length <= cycle_length ->
  date_lt target anchor = false ->
  exists cd ph d,
    get_cycle_day (PyDate target) (PyDate anchor) cycle_length = Ok cd
    /\ get_cycle_phase cd cycle_length period_length
         DEFAULT_LUTEAL_PHASE_LENGTH = Ok ph
    /\ PHASE_DETAILS !! ph = Some d
    /\ outcome (get_day_info (PyDate target) (PyDate anchor) cycle_length
                  period_length include_details)
       = Ok {| Models.date := target; cycleDay := cd; phase := ph;
               details := if include_details then Some (model_dump d)
                          else None |}.
Proof.
  intros Hc Hp Hle Hlt.
  pose proof (get_cycle_day_ok target anchor cycle_length Hc Hlt) as Hday.
  pose proof (get_cycle_day_range _ _ _ _ Hday) as Hrange.
  set (cd := days_between target anchor mod clamp_cycle_length cycle_length + 1)
    in *.
  destruct (get_cycle_phase_total cd cycle_length period_length
              DEFAULT_LUTEAL_PHASE_LENGTH) as (ph & Hphase & Hin);
    try (unfold DEFAULT_LUTEAL_PHASE_LENGTH; lia).
  destruct (get_phase_details_known ph Hin) as (d & Htable & Hdetails & _).
  exists cd, ph, d.
  split; [exact Hday | ]. split; [exact Hphase | ]. split; [exact Htable | ].
  rewrite get_day_info_guarded by assumption.
  rewrite Hday. cbn [lift bind]. rewrite Hphase.
  destruct include_details; [rewrite Hdetails | ]; reflexivity.
Qed.

Lemma get_day_info_success_witness :
  exists cd ph d,
    get_cycle_day (PyDate (mkdate 2024 3 10)) (PyDate (mkdate 2024 2 15)) 28
    = Ok cd
    /\ get_cycle_phase cd 28 5 DEFAULT_LUTEAL_PHASE_LENGTH = Ok ph
    /\ PHASE_DETAILS !! ph = Some d
    /\ outcome (get_day_info (PyDate (mkdate 2024 3 10))
                  (PyDate (mkdate 2024 2 15)) 28 5 true)
       = Ok {| Models.date := mkdate 2024 3 10; cycleDay := cd; phase := ph;
               details := Some (model_dump d) |}.
Proof.
  apply (get_day_info_success (mkdate 2024 3 10) (mkdate 2024 2 15) 28 5 true);
    [lia | lia | lia | reflexivity].
Defined.

End DayInfoFacts.

(** ** Further properties of the calendar model *)

Section CalendarMore.

Lemma toordinal_range (d : date) :
  valid_date d -> 1 <= toordinal d <= MAXORDINAL.
Proof.
  intros (Hy & Hm & Hd). unfold MINYEAR, MAXYEAR in Hy.
  pose proof (month_span (year d) (month d) Hm) as (Hb0 & _ & Hb1).
  pose proof (days_before_year_mono 1 (year d) ltac:(lia)) as Hlo.
  pose proof (days_before_year_mono (year d + 1) 10000 ltac:(lia)) as Hhi.
  rewrite days_before_year_succ in Hhi.
  assert (H1 : days_before_year 1 = 0) by reflexivity.
  assert (H10k : days_before_year 10000 = 3652059) by (vm_compute; reflexivity).
  unfold toordinal, ymd2ord, MAXORDINAL. lia.
Qed.

Lemma date_lt_ordinal (a b : date) :
  valid_date a -> valid_date b ->
  date_lt a b = (toordinal a <? toordinal b).
Proof.
  intros Ha Hb. destruct (date_lt a b) eqn:E.
  - pose proof (toordinal_lt a b Ha Hb E). symmetry. apply Z.ltb_lt. lia.
  - pose proof (toordinal_le a b Ha Hb E). symmetry. apply Z.ltb_ge. lia.
Qed.

Lemma date_add_some (d : date) (n : Z) :
  1 <= toordinal d + n <= MAXORDINAL ->
  exists t, date_add d n = Some t /\ valid_date t /\ toordinal t = toordinal d + n.
Proof.
  intros Hr. unfold date_add.
  destruct (Z.ltb_spec 0 (toordinal d + n)); [ | lia].
  destruct (Z.leb_spec (toordinal d + n) MAXORDINAL); [ | lia].
  cbn [andb]. eexists. split; [reflexivity | ].
  apply ord2ymd_spec. lia.
Qed.

(** Dates are determined by their ordinal. *)
Lemma toordinal_inj (a b : date) :
  valid_date a -> valid_date b -> toordinal a = toordinal b -> a = b.
Proof.
  intros Ha Hb Heq.
  assert (Hab : date_lt a b = false) by (rewrite date_lt_ordinal by assumption; apply Z.ltb_ge; lia).
  destruct (date_lt_trichotomy a b Hab) as [Hba | ->]; [ | reflexivity].
  rewrite date_lt_ordinal in Hba by assumption. apply Z.ltb_lt in Hba. lia.
Qed.

Lemma valid_2024_02_15 : valid_date (mkdate 2024 2 15).
Proof. apply valid_dateb_spec. reflexivity. Qed.

Lemma valid_2024_03_10 : valid_date (mkdate 2024 3 10).
Proof. apply valid_dateb_spec. reflexivity. Qed.

Lemma valid_2024_03_13 : valid_date (mkdate 2024 3 13).
Proof. apply valid_dateb_spec. reflexivity. Qed.

End CalendarMore.

(** ** Further properties of the day-number calculator *)

Section CycleDayMore.

Lemma mod_succ_wrap (x L : Z) :
  0 < L ->
  (x + 1) mod L + 1 = if x mod L + 1 =? L then 1 else x mod L + 1 + 1.
Proof.
  intros HL. pose proof (Z.mod_pos_bound x L HL) as Hr.
  rewrite <- Zplus_mod_idemp_l.
  destruct (Z.eqb_spec (x mod L + 1) L) as [E | N].
  - rewrite E, Z_mod_same_full. reflexivity.
  - rewrite Z.mod_small by lia. reflexivity.
Qed.



(** X5: the day after.  If a target has cycle day [d], the next
    calendar day has cycle day [d + 1], except after the last day of the
    clamped cycle, where the count starts again at 1. *)
Theorem get_cycle_day_next_day (target anchor next : date)
    (cycle_length d : Z) :
  valid_date target -> valid_date anchor ->
  get_cycle_day (PyDate target) (PyDate anchor) cycle_length = Ok d ->
  date_add target 1 = Some next ->
  get_cycle_day (PyDate next) (PyDate anchor) cycle_length
  = Ok (if d =? clamp_cycle_length cycle_length then 1 else d + 1).
Proof.
  intros Ht Ha Hday Hnext.
  apply date_add_spec in Hnext as [Hn Hord].
  pose proof (clamp_cycle_length_range cycle_length) as Hc.
  unfold MIN_CYCLE_LENGTH in Hc.
  rewrite get_cycle_day_dates in Hday. rewrite get_cycle_day_dates.
  destruct (cycle_length <=? 0); [discriminate | ].
  destruct (date_lt target anchor) eqn:Hlt; [discriminate | ].
  assert (Hlt' : date_lt next anchor = false).
  { apply date_lt_false_of_ordinal; try assumption.
    pose proof (toordinal_le target anchor Ht Ha Hlt). lia. }
  rewrite Hlt'. injection Hday as <-.
  f_equal. unfold days_between. rewrite Hord.
  replace (toordinal target + 1 - toordinal anchor)
    with (toordinal target - toordinal anchor + 1) by lia.
  apply mod_succ_wrap. lia.
Qed.

Lemma get_cycle_day_next_day_witness :
  get_cycle_day (PyDate (mkdate 2024 3 14)) (PyDate (mkdate 2024 2 15)) 28
  = Ok (if 28 =? clamp_cycle_length 28 then 1 else 28 + 1).
Proof.
  apply (get_cycle_day_next_day (mkdate 2024 3 13) (mkdate 2024 2 15)
           (mkdate 2024 3 14) 28 28);
    [exact valid_2024_03_13 | exact valid_2024_02_15
    | reflexivity | reflexivity].
Defined.

Lemma whole_cycles_same_residue (target anchor later : date) (L k : Z) :
  toordinal later = toordinal target + k * L ->
  L <> 0 ->
  days_between later anchor mod L = days_between target anchor mod L.
Proof.
  intros Hord HL. unfold days_between. rewrite Hord.
  replace (toordinal target + k * L - toordinal anchor)
    with (toordinal target - toordinal anchor + k * L) by lia.
  now apply Z.mod_add.
Qed.

(** X6: a target on or after the anchor and the date a whole number
    of clamped cycles after it get the same answer from [get_cycle_day]. *)
Theorem get_cycle_day_whole_cycles_later (target anchor later : date)
    (cycle_length k : Z) :
  valid_date target -> valid_date anchor ->
  0 <= k ->
  date_lt target anchor = false ->
  date_add target (k * clamp_cycle_length cycle_length) = Some later ->
  get_cycle_day (PyDate later) (PyDate anchor) cycle_length
  = get_cycle_day (PyDate target) (PyDate anchor) cycle_length.
Proof.
  intros Ht Ha Hk Hlt Hlater.
  apply date_add_spec in Hlater as [Hl Hord].
  pose proof (clamp_cycle_length_range cycle_length) as Hc.
  unfold MIN_CYCLE_LENGTH in Hc.
  rewrite !get_cycle_day_dates, Hlt.
  assert (Hlt' : date_lt later anchor = false).
  { apply date_lt_false_of_ordinal; try assumption.
    pose proof (toordinal_le target anchor Ht Ha Hlt). nia. }
  rewrite Hlt'. destruct (cycle_length <=? 0); [reflexivity | ].
  do 2 f_equal. apply (whole_cycles_same_residue _ _ _ _ k); [exact Hord | lia].
Qed.

Lemma get_cycle_day_whole_cycles_later_witness :
  get_cycle_day (PyDate (mkdate 2024 5 19)) (PyDate (mkdate 2024 2 15)) 40
  = get_cycle_day (PyDate (mkdate 2024 3 10)) (PyDate (mkdate 2024 2 15)) 40.
Proof.
  apply (get_cycle_day_whole_cycles_later (mkdate 2024 3 10)
           (mkdate 2024 2 15) (mkdate 2024 5 19) 40 2);
    [exact valid_2024_03_10 | exact valid_2024_02_15 | lia
    | reflexivity | reflexivity].
Defined.

(** X7: moving the target and the anchor by the same number of days
    changes nothing: [get_cycle_day] gives the same day number, or the
    same error. *)
Theorem get_cycle_day_translation (target anchor target' anchor' : date)
    (cycle_length n : Z) :
  valid_date target -> valid_date anchor ->
  date_add target n = Some target' ->
  date_add anchor n = Some anchor' ->
  get_cycle_day (PyDate target') (PyDate anchor') cycle_length
  = get_cycle_day (PyDate target) (PyDate anchor) cycle_length.
Proof.
  intros Ht Ha Ht' Ha'.
  apply date_add_spec in Ht' as [Hvt Hot].
  apply date_add_spec in Ha' as [Hva Hoa].
  rewrite !get_cycle_day_dates.
  rewrite (date_lt_ordinal target' anchor'), (date_lt_ordinal target anchor)
    by assumption.
  unfold days_between. rewrite Hot, Hoa.
  replace (toordinal target + n - (toordinal anchor + n))
    with (toordinal target - toordinal anchor) by lia.
  replace (toordinal target + n <? toordinal anchor + n)
    with (toordinal target <? toordinal anchor); [reflexivity | ].
  destruct (Z.ltb_spec (toordinal target) (toordinal anchor)),
    (Z.ltb_spec (toordinal target + n) (toordinal anchor + n));
    first [reflexivity | lia].
Qed.

Lemma get_cycle_day_translation_witness :
  get_cycle_day (PyDate (mkdate 2025 3 11)) (PyDate (mkdate 2025 2 15)) 28
  = get_cycle_day (PyDate (mkdate 2024 3 10)) (PyDate (mkdate 2024 2 15)) 28.
Proof.
  apply (get_cycle_day_translation (mkdate 2024 3 10) (mkdate 2024 2 15)
           (mkdate 2025 3 11) (mkdate 2025 2 15) 28 366);
    [exact valid_2024_03_10 | exact valid_2024_02_15
    | reflexivity | reflexivity].
Defined.

(** X8: every day number from 1 to the clamped cycle length is
    reached: the date [d - 1] days after the anchor is cycle day [d]. *)
Theorem get_cycle_day_attains (anchor target : date) (cycle_length d : Z) :
  valid_date anchor ->
  0 < cycle_length ->
  1 <= d <= clamp_cycle_length cycle_length ->
  date_add anchor (d - 1) = Some target ->
  get_cycle_day (PyDate target) (PyDate anchor) cycle_length = Ok d.
Proof.
  intros Ha Hcl Hd Hadd.
  apply date_add_spec in Hadd as [Ht Hord].
  rewrite get_cycle_day_ok.
  - f_equal. unfold days_between. rewrite Hord.
    replace (toordinal anchor + (d - 1) - toordinal anchor) with (d - 1) by lia.
    rewrite Z.mod_small by lia. lia.
  - assumption.
  - apply date_lt_false_of_ordinal; try assumption. lia.
Qed.

Lemma get_cycle_day_attains_witness :
  get_cycle_day (PyDate (mkdate 2024 2 24)) (PyDate (mkdate 2024 2 15)) 28
  = Ok 10.
Proof.
  apply (get_cycle_day_attains (mkdate 2024 2 15) (mkdate 2024 2 24) 28 10);
    [exact valid_2024_02_15 | lia
    | unfold clamp_cycle_length, MIN_CYCLE_LENGTH, MAX_CYCLE_LENGTH; lia
    | reflexivity].
Defined.

(** X9: only the clamped cycle length matters to [get_cycle_day]:
    a positive length and its clamped value give the same answer, so all
    lengths of 35 or more agree, and all positive lengths up to 21 agree. *)
Theorem get_cycle_day_clamped_length (target_date anchor_date : pyobj)
    (cycle_length : Z) :
  0 < cycle_length ->
  get_cycle_day target_date anchor_date cycle_length
  = get_cycle_day target_date anchor_date (clamp_cycle_length cycle_length)
  /\ (forall other, 35 <= cycle_length -> 35 <= other ->
        get_cycle_day target_date anchor_date other
        = get_cycle_day target_date anchor_date cycle_length)
  /\ (forall other, cycle_length <= 21 -> 0 < other <= 21 ->
        get_cycle_day target_date anchor_date other
        = get_cycle_day target_date anchor_date cycle_length).
Proof.
  intros Hcl.
  assert (Hgen : forall c c', 0 < c -> 0 < c' ->
            clamp_cycle_length c = clamp_cycle_length c' ->
            get_cycle_day target_date anchor_date c
            = get_cycle_day target_date anchor_date c').
  { intros c c' Hc Hc' Heq. unfold get_cycle_day.
    destruct target_date, anchor_date; try reflexivity.
    destruct (Z.leb_spec c 0), (Z.leb_spec c' 0); try lia.
    now rewrite Heq. }
  pose proof (clamp_cycle_length_range cycle_length) as Hr.
  unfold MIN_CYCLE_LENGTH, MAX_CYCLE_LENGTH in Hr.
  split; [ | split].
  - apply Hgen; [lia | lia | now rewrite clamp_cycle_length_idempotent].
  - intros other H1 H2. apply Hgen; try lia.
    unfold clamp_cycle_length, MIN_CYCLE_LENGTH, MAX_CYCLE_LENGTH. lia.
  - intros other H1 H2. apply Hgen; try lia.
    unfold clamp_cycle_length, MIN_CYCLE_LENGTH, MAX_CYCLE_LENGTH. lia.
Qed.

Lemma get_cycle_day_clamped_length_witness :
  get_cycle_day (PyDate (mkdate 2024 3 10)) (PyDate (mkdate 2024 2 15)) 40
  = get_cycle_day (PyDate (mkdate 2024 3 10)) (PyDate (mkdate 2024 2 15))
      (clamp_cycle_length 40).
Proof.
  destruct (get_cycle_day_clamped_length (PyDate (mkdate 2024 3 10))
              (PyDate (mkdate 2024 2 15)) 40 ltac:(lia)) as (Hclamp & _).
  exact Hclamp.
Defined.

End CycleDayMore.

(** ** Further properties of the phase classifier *)

Section CyclePhaseMore.

Ltac phase_case :=
  match goal with
  | |- context [?x <=? ?y] => destruct (Z.leb_spec x y)
  | |- context [?x >=? ?y] => destruct (Z.geb_spec x y)
  | |- context [?x >? ?y] => destruct (Z.gtb_spec x y)
  end.

Ltac phase_cases :=
  unfold get_cycle_phase; repeat (phase_case; cbn [orb andb]).

(** The phase of a successful call, read off the day alone. *)
Lemma get_cycle_phase_value
    (cycle_day cycle_length period_length luteal_phase_length : Z)
    (p : string) :
  get_cycle_phase cycle_day cycle_length period_length luteal_phase_length
  = Ok p ->
  p = if cycle_day <=? period_length then "menstrual"
      else if cycle_day >=? clamp_cycle_length cycle_length - luteal_phase_length
      then "luteal"
      else if cycle_day =? clamp_cycle_length cycle_length - luteal_phase_length - 1
      then "ovulatory"
      else "follicular".
Proof.
  unfold get_cycle_phase.
  destruct (_ || _); [discriminate | ].
  destruct (_ >? _); [discriminate | ].
  cbv zeta.
  destruct (cycle_day <=? period_length); [congruence | ].
  destruct (Z.geb_spec cycle_day
              (clamp_cycle_length cycle_length - luteal_phase_length));
    [congruence | ].
  destruct (Z.eqb_spec cycle_day
              (clamp_cycle_length cycle_length - luteal_phase_length - 1)).
  - destruct (Z.leb_spec
                (clamp_cycle_length cycle_length - luteal_phase_length - 1)
                cycle_day); [ | lia].
    destruct (Z.leb_spec cycle_day
                (clamp_cycle_length cycle_length - luteal_phase_length - 1 + 2));
      [ | lia].
    cbn [andb]. congruence.
  - destruct (Z.leb_spec
                (clamp_cycle_length cycle_length - luteal_phase_length - 1)
                cycle_day);
      [ | cbn [andb]; congruence].
    lia.
Qed.

(** X10: [get_cycle_phase] refuses any argument that is zero or
    negative with one message, before it looks at the period length,
    and it returns a phase exactly when all four arguments are positive
    and the period is no longer than the (unclamped) cycle. *)
Theorem get_cycle_phase_failures
    (cycle_day cycle_length period_length luteal_phase_length : Z) :
  (cycle_day <= 0 \/ cycle_length <= 0 \/ period_length <= 0
   \/ luteal_phase_length <= 0 ->
   get_cycle_phase cycle_day cycle_length period_length luteal_phase_length
   = Raise (ValueError "Cycle day, cycle length, period length, and luteal phase length must be positive integers."))
  /\ ((exists p,
         get_cycle_phase cycle_day cycle_length period_length
           luteal_phase_length = Ok p)
      <-> 0 < cycle_day /\ 0 < cycle_length /\ 0 < period_length
          /\ 0 < luteal_phase_length /\ period_length <= cycle_length).
Proof.
  split.
  - intros Hbad. phase_cases; first [reflexivity | lia].
  - split.
    + intros (p & Hp). revert Hp. phase_cases; intros Hp;
        first [discriminate Hp | lia].
    + intros (Hd & Hc & Hp & Hl & Hle).
      destruct (get_cycle_phase_total cycle_day cycle_length period_length
                  luteal_phase_length Hd Hc Hp Hl Hle) as (p & Hrun & _).
      now exists p.
Qed.

Lemma get_cycle_phase_failures_witness :
  get_cycle_phase 0 28 5 14
  = Raise (ValueError "Cycle day, cycle length, period length, and luteal phase length must be positive integers.").
Proof.
  destruct (get_cycle_phase_failures 0 28 5 14) as (Hbad & _).
  apply Hbad. left. lia.
Defined.

(** X11: the phases come in order.  For fixed lengths, a later cycle
    day never gets an earlier phase: menstrual, follicular, ovulatory,
    luteal. *)
Theorem get_cycle_phase_monotone
    (day1 day2 cycle_length period_length luteal_phase_length : Z)
    (p1 p2 : string) :
  day1 <= day2 ->
  get_cycle_phase day1 cycle_length period_length luteal_phase_length = Ok p1 ->
  get_cycle_phase day2 cycle_length period_length luteal_phase_length = Ok p2 ->
  phase_rank p1 <= phase_rank p2.
Proof.
  intros Hle Hp1 Hp2.
  apply get_cycle_phase_value in Hp1, Hp2. subst p1 p2.
  repeat match goal with
  | |- context [?x <=? ?y] => destruct (Z.leb_spec x y)
  | |- context [?x >=? ?y] => destruct (Z.geb_spec x y)
  | |- context [?x =? ?y] => destruct (Z.eqb_spec x y)
  end; first [lia | vm_compute; discriminate].
Qed.

Lemma get_cycle_phase_monotone_witness :
  phase_rank "menstrual" <= phase_rank "ovulatory".
Proof.
  apply (get_cycle_phase_monotone 5 13 28 5 14 "menstrual" "ovulatory");
    [lia | reflexivity | reflexivity].
Defined.

Lemma filter_none (f : Z -> bool) (l : list Z) :
  (forall x, In x l -> f x = false) -> List.filter f l = [].
Proof.
  induction l as [ | x l IH]; intros Hf; [reflexivity | ].
  cbn. rewrite (Hf x) by (now left). apply IH. intros y Hy. apply Hf. now right.
Qed.

Lemma filter_every (f : Z -> bool) (l : list Z) :
  (forall x, In x l -> f x = true) -> List.filter f l = l.
Proof.
  induction l as [ | x l IH]; intros Hf; [reflexivity | ].
  cbn. rewrite (Hf x) by (now left). f_equal. apply IH.
  intros y Hy. apply Hf. now right.
Qed.

Lemma In_seqZ (x s n : Z) : In x (seqZ s n) <-> s <= x < s + n.
Proof. rewrite <- list_elem_of_In. apply elem_of_seqZ. Qed.

(** Filtering a range of integers by a test that holds exactly on a
    sub-range leaves that sub-range. *)
Lemma filter_seqZ_run (f : Z -> bool) (s n lo len : Z) :
  0 <= len -> s <= lo -> lo + len <= s + n ->
  (forall x, s <= x < s + n -> (f x = true <-> lo <= x < lo + len)) ->
  List.filter f (seqZ s n) = seqZ lo len.
Proof.
  intros Hlen Hlo Hhi Hf.
  replace n with ((lo - s) + (len + (s + n - (lo + len)))) by lia.
  rewrite seqZ_app by lia. replace (s + (lo - s)) with lo by lia.
  rewrite seqZ_app by lia.
  rewrite !List.filter_app.
  rewrite (filter_none f (seqZ s (lo - s))), (filter_every f (seqZ lo len)),
    (filter_none f (seqZ (lo + len) _)).
  - now rewrite app_nil_r.
  - intros x Hx. apply In_seqZ in Hx.
    destruct (f x) eqn:E; [ | reflexivity]. apply Hf in E; lia.
  - intros x Hx. apply In_seqZ in Hx. apply Hf; lia.
  - intros x Hx. apply In_seqZ in Hx.
    destruct (f x) eqn:E; [ | reflexivity]. apply Hf in E; lia.
Qed.

Lemma get_cycle_phase_eq
    (cycle_day cycle_length period_length luteal_phase_length : Z) :
  0 < cycle_day -> 0 < cycle_length -> 0 < period_length ->
  0 < luteal_phase_length -> period_length <= cycle_length ->
  get_cycle_phase cycle_day cycle_length period_length luteal_phase_length
  = Ok (if cycle_day <=? period_length then "menstrual"
        else if cycle_day >=? clamp_cycle_length cycle_length - luteal_phase_length
        then "luteal"
        else if cycle_day =? clamp_cycle_length cycle_length - luteal_phase_length - 1
        then "ovulatory"
        else "follicular").
Proof.
  intros Hd Hc Hp Hl Hle.
  destruct (get_cycle_phase_total cycle_day cycle_length period_length
              luteal_phase_length Hd Hc Hp Hl Hle) as (p & Hrun & _).
  rewrite Hrun. f_equal. now apply get_cycle_phase_value.
Qed.

(** X12: the days of a cycle by phase.  When the period ends at least
    two days before the luteal start, the days 1 .. clamped length split
    into four consecutive runs: the period's days are menstrual, then
    follicular days up to [clamped - luteal - 2], the single ovulatory
    day [clamped - luteal - 1], and [luteal + 1] luteal days from
    [clamped - luteal] to the end. *)
Theorem phase_days_runs (cycle_length period_length luteal_phase_length : Z) :
  0 < cycle_length -> 0 < period_length -> 0 < luteal_phase_length ->
  period_length <= cycle_length ->
  period_length + luteal_phase_length + 2 <= clamp_cycle_length cycle_length ->
  phase_days "menstrual" cycle_length period_length luteal_phase_length
  = seqZ 1 period_length
  /\ phase_days "follicular" cycle_length period_length luteal_phase_length
     = seqZ (period_length + 1)
         (clamp_cycle_length cycle_length - luteal_phase_length - 2
          - period_length)
  /\ phase_days "ovulatory" cycle_length period_length luteal_phase_length
     = [clamp_cycle_length cycle_length - luteal_phase_length - 1]
  /\ phase_days "luteal" cycle_length period_length luteal_phase_length
     = seqZ (clamp_cycle_length cycle_length - luteal_phase_length)
         (luteal_phase_length + 1)
  /\ length (phase_days "luteal" cycle_length period_length
               luteal_phase_length)
     = Z.to_nat (luteal_phase_length + 1).
Proof.
  intros Hc Hp Hl Hle Hroom.
  set (L := clamp_cycle_length cycle_length) in *.
  assert (Hrun : forall p lo len,
            0 <= len -> 1 <= lo -> lo + len <= 1 + L ->
            (forall x, 1 <= x < 1 + L ->
               (String.eqb
                  (if x <=? period_length then "menstrual"
                   else if x >=? L - luteal_phase_length then "luteal"
                   else if x =? L - luteal_phase_length - 1 then "ovulatory"
                   else "follicular") p = true
                <-> lo <= x < lo + len)) ->
            phase_days p cycle_length period_length luteal_phase_length
            = seqZ lo len).
  { intros p lo len Hlen Hlo Hhi Hiff. unfold phase_days. fold L.
    apply filter_seqZ_run; try assumption.
    intros x Hx. rewrite get_cycle_phase_eq by lia. fold L. cbn [is_phase].
    apply Hiff, Hx. }
  assert (Hlut : phase_days "luteal" cycle_length period_length
                   luteal_phase_length
                 = seqZ (L - luteal_phase_length) (luteal_phase_length + 1)).
  { apply Hrun; try lia. intros x Hx.
    destruct (Z.leb_spec x period_length),
      (Z.geb_spec x (L - luteal_phase_length)),
      (Z.eqb_spec x (L - luteal_phase_length - 1));
      cbn; split; first [lia | discriminate | reflexivity]. }
  split; [ | split; [ | split; [ | split]]].
  - apply Hrun; try lia. intros x Hx.
    destruct (Z.leb_spec x period_length),
      (Z.geb_spec x (L - luteal_phase_length)),
      (Z.eqb_spec x (L - luteal_phase_length - 1));
      cbn; split; first [lia | discriminate | reflexivity].
  - apply Hrun; try lia. intros x Hx.
    destruct (Z.leb_spec x period_length),
      (Z.geb_spec x (L - luteal_phase_length)),
      (Z.eqb_spec x (L - luteal_phase_length - 1));
      cbn; split; first [lia | discriminate | reflexivity].
  - change [L - luteal_phase_length - 1]
      with (seqZ (L - luteal_phase_length - 1) 1).
    apply Hrun; try lia. intros x Hx.
    destruct (Z.leb_spec x period_length),
      (Z.geb_spec x (L - luteal_phase_length)),
      (Z.eqb_spec x (L - luteal_phase_length - 1));
      cbn; split; first [lia | discriminate | reflexivity].
  - exact Hlut.
  - rewrite Hlut. apply length_seqZ.
Qed.

Lemma phase_days_runs_witness :
  phase_days "luteal" 28 5 14
  = seqZ (clamp_cycle_length 28 - 14) (14 + 1).
Proof.
  destruct (phase_days_runs 28 5 14 ltac:(lia) ltac:(lia) ltac:(lia)
              ltac:(lia)
              ltac:(unfold clamp_cycle_length, MIN_CYCLE_LENGTH,
                      MAX_CYCLE_LENGTH; lia))
    as (_ & _ & _ & Hluteal & _).
  exact Hluteal.
Defined.

End CyclePhaseMore.

(** ** Further properties of [get_day_info] *)

Section DayInfoMore.

Lemma model_dump_lookup (d : PhaseDetails) :
  model_dump d !! "energy" = Some (energy d)
  /\ model_dump d !! "emotional" = Some (emotional d)
  /\ model_dump d !! "nutrition" = Some (nutrition d)
  /\ model_dump d !! "exercise" = Some (exercise d).
Proof. repeat split; vm_compute; reflexivity. Qed.

Lemma model_dump_dom (d : PhaseDetails) :
  dom (model_dump d)
  = ({[ "energy"; "emotional"; "nutrition"; "exercise" ]} : gset string).
Proof.
  unfold model_dump. rewrite !dom_insert_L, dom_empty_L.
  apply set_eq. intros k.
  rewrite !elem_of_union, !elem_of_singleton, elem_of_empty. tauto.
Qed.

(** The whole answer of [get_day_info], log included, in each of the
    five situations its arguments can be in. *)
Lemma get_day_info_cases (target_date anchor_date : pyobj)
    (cycle_length period_length : Z) (include_details : bool) :
  let answer := get_day_info target_date anchor_date cycle_length
                  period_length include_details in
  (answer = ([], Raise (ValueError
     "target_date and last_period_start_date must be date objects."))
   /\ (isinstance_date target_date = false
       \/ isinstance_date anchor_date = false))
  \/ exists target anchor,
       target_date = PyDate target /\ anchor_date = PyDate anchor
       /\ ((answer = ([], Raise (ValueError
              "cycle_length and period_length must be positive integers."))
            /\ (cycle_length <= 0 \/ period_length <= 0))
           \/ (answer = ([], Raise (ValueError
                 "Target date can not be before the last period start date."))
               /\ 0 < cycle_length /\ 0 < period_length
               /\ date_lt target anchor = true)
           \/ (answer = ([], Raise (ValueError
                 "Error calculating day info: Period length cannot be longer than cycle length."))
               /\ 0 < cycle_length /\ 0 < period_length
               /\ date_lt target anchor = false
               /\ cycle_length < period_length)
           \/ (0 < cycle_length /\ 0 < period_length
               /\ date_lt target anchor = false
               /\ period_length <= cycle_length
               /\ exists ph d,
                    get_cycle_phase
                      (days_between target anchor
                         mod clamp_cycle_length cycle_length + 1)
                      cycle_length period_length DEFAULT_LUTEAL_PHASE_LENGTH
                    = Ok ph
                    /\ PHASE_DETAILS !! ph = Some d
                    /\ populated d
                    /\ answer
                       = ([InfoResult "get_day_info result: "
                             (mkDayInfo target
                                (days_between target anchor
                                   mod clamp_cycle_length cycle_length + 1)
                                ph
                                (if include_details
                                 then Some (model_dump d) else None))],
                          Ok (mkDayInfo target
                                (days_between target anchor
                                   mod clamp_cycle_length cycle_length + 1)
                                ph
                                (if include_details
                                 then Some (model_dump d) else None))))).
Proof.
  cbv zeta.
  destruct target_date as [target | | | ], anchor_date as [anchor | | | ];
    try (left; split; [reflexivity | cbn; auto]).
  right. exists target, anchor. split; [reflexivity | ]. split; [reflexivity | ].
  destruct (Z_le_gt_dec cycle_length 0) as [Hc | Hc].
  { left. split; [ | auto]. unfold get_day_info.
    destruct (Z.leb_spec cycle_length 0); [reflexivity | lia]. }
  destruct (Z_le_gt_dec period_length 0) as [Hp | Hp].
  { left. split; [ | auto]. unfold get_day_info.
    destruct (Z.leb_spec cycle_length 0), (Z.leb_spec period_length 0);
      first [reflexivity | lia]. }
  right.
  destruct (date_lt target anchor) eqn:Hlt.
  { left. split; [ | repeat split; lia]. unfold get_day_info. rewrite Hlt.
    destruct (Z.leb_spec cycle_length 0), (Z.leb_spec period_length 0);
      first [reflexivity | lia]. }
  right.
  rewrite get_day_info_guarded by (assumption || lia).
  rewrite get_cycle_day_ok by (assumption || lia).
  pose proof (get_cycle_day_ok target anchor cycle_length ltac:(lia) Hlt) as Hday.
  apply get_cycle_day_range in Hday.
  set (cd := days_between target anchor mod clamp_cycle_length cycle_length + 1)
    in *.
  cbn [lift bind].
  destruct (Z_lt_le_dec cycle_length period_length) as [Hlong | Hle].
  { left. split; [ | repeat split; (assumption || lia)].
    rewrite get_cycle_phase_period_longer
      by (unfold DEFAULT_LUTEAL_PHASE_LENGTH; lia).
    reflexivity. }
  right. repeat (split; [assumption || lia | ]).
  destruct (get_cycle_phase_total cd cycle_length period_length
              DEFAULT_LUTEAL_PHASE_LENGTH) as (ph & Hphase & Hin);
    try (unfold DEFAULT_LUTEAL_PHASE_LENGTH; lia).
  destruct (get_phase_details_known ph Hin) as (d & Htable & Hdetails & Hpop).
  exists ph, d. repeat (split; [assumption | ]).
  rewrite Hphase. destruct include_details; [rewrite Hdetails | ]; reflexivity.
Qed.



(** X14: what [get_day_info] logs: one info record holding the
    result when it succeeds, nothing when it fails, and never the
    warning of [get_phase_details], whose fallback branch it cannot
    reach. *)
Theorem get_day_info_log (target_date anchor_date : pyobj)
    (cycle_length period_length : Z) (include_details : bool) :
  fst (get_day_info target_date anchor_date cycle_length period_length
         include_details)
  = match outcome (get_day_info target_date anchor_date cycle_length
                     period_length include_details) with
    | Ok day_info => [InfoResult "get_day_info result: " day_info]
    | Raise _ => []
    end
  /\ (forall msg,
        ~ In (Warning msg)
            (fst (get_day_info target_date anchor_date cycle_length
                    period_length include_details))).
Proof.
  pose proof (get_day_info_cases target_date anchor_date cycle_length
                period_length include_details) as Hcases.
  cbv zeta in Hcases.
  assert (Hlog :
    fst (get_day_info target_date anchor_date cycle_length period_length
           include_details)
    = match outcome (get_day_info target_date anchor_date cycle_length
                       period_length include_details) with
      | Ok day_info => [InfoResult "get_day_info result: " day_info]
      | Raise _ => []
      end).
  { destruct Hcases as [(-> & _) | (t & a & _ & _ & Hrest)]; [reflexivity | ].
    destruct Hrest as [(-> & _) | [(-> & _) | [(-> & _) | Hrun]]];
      try reflexivity.
    destruct Hrun as (_ & _ & _ & _ & ph & d & _ & _ & _ & ->). reflexivity. }
  split; [exact Hlog | ].
  intros msg. rewrite Hlog.
  destruct (outcome _); cbn; [intros [H | []]; discriminate | tauto].
Qed.

Lemma get_day_info_log_witness :
  fst (get_day_info (PyDate (mkdate 2024 3 10)) (PyDate (mkdate 2024 2 15))
         28 5 true)
  = match outcome (get_day_info (PyDate (mkdate 2024 3 10))
                     (PyDate (mkdate 2024 2 15)) 28 5 true) with
    | Ok day_info => [InfoResult "get_day_info result: " day_info]
    | Raise _ => []
    end.
Proof.
  apply (get_day_info_log (PyDate (mkdate 2024 3 10))
           (PyDate (mkdate 2024 2 15)) 28 5 true).
Defined.

(** X15: [include_details] only adds the details.  With and without
    it [get_day_info] fails with the same error; when it succeeds the
    plain record has no details and the detailed one has the same date,
    cycle day and phase plus the dumped record of that phase. *)
Theorem get_day_info_include_details (target_date anchor_date : pyobj)
    (cycle_length period_length : Z) :
  (forall e,
     outcome (get_day_info target_date anchor_date cycle_length period_length
                false) = Raise e
     <-> outcome (get_day_info target_date anchor_date cycle_length
                    period_length true) = Raise e)
  /\ (forall plain,
        outcome (get_day_info target_date anchor_date cycle_length
                   period_length false) = Ok plain ->
        details plain = None
        /\ exists d,
             PHASE_DETAILS !! phase plain = Some d
             /\ outcome (get_day_info target_date anchor_date cycle_length
                           period_length true)
                = Ok (mkDayInfo (Models.date plain) (cycleDay plain)
                        (phase plain) (Some (model_dump d)))).
Proof.
  pose proof (get_day_info_cases target_date anchor_date cycle_length
                period_length false) as Hf.
  pose proof (get_day_info_cases target_date anchor_date cycle_length
                period_length true) as Ht.
  cbv zeta in Hf, Ht.
  destruct Hf as [(Hf & Hbad) | (t & a & -> & -> & Hf)].
  { destruct Ht as [(Ht & _) | (t & a & -> & -> & _)];
      [ | cbn in Hbad; destruct Hbad; discriminate].
    rewrite Hf, Ht. split; [tauto | intros ? [=]]. }
  destruct Ht as [(_ & [Hbad | Hbad]) | (t' & a' & [= <-] & [= <-] & Ht)];
    try discriminate.
  destruct Hf as [(Hf & ?) | [(Hf & ? & ? & ?) | [(Hf & ? & ? & ? & ?) | Hf]]];
    destruct Ht as [(Ht & ?) | [(Ht & ? & ? & ?) | [(Ht & ? & ? & ? & ?) | Ht]]];
    try (rewrite Hf, Ht; split; [tauto | intros ? [=]]);
    try (exfalso; first [lia | congruence
                        | destruct Ht as (? & ? & ? & ? & _); first [lia | congruence]
                        | destruct Hf as (? & ? & ? & ? & _); first [lia | congruence]]).
  destruct Hf as (_ & _ & _ & _ & ph & d & Hph & Hd & _ & Hf).
  destruct Ht as (_ & _ & _ & _ & ph' & d' & Hph' & Hd' & _ & Ht).
  assert (ph' = ph) by congruence. subst ph'.
  assert (d' = d) by congruence. subst d'.
  rewrite Hf, Ht. cbn [outcome snd]. split.
  - intros e. split; intros [=].
  - intros plain [= <-]. cbn. split; [reflexivity | ].
    exists d. split; [exact Hd | reflexivity].
Qed.

Lemma get_day_info_include_details_witness :
  outcome (get_day_info (PyDate (mkdate 2024 3 10))
             (PyDate (mkdate 2024 2 15)) 28 30 false)
  = Raise (ValueError "Error calculating day info: Period length cannot be longer than cycle length.")
  <-> outcome (get_day_info (PyDate (mkdate 2024 3 10))
                 (PyDate (mkdate 2024 2 15)) 28 30 true)
      = Raise (ValueError "Error calculating day info: Period length cannot be longer than cycle length.").
Proof.
  apply (get_day_info_include_details (PyDate (mkdate 2024 3 10))
           (PyDate (mkdate 2024 2 15)) 28 30).
Defined.

(** X16: the details of a detailed answer are the dictionary of the
    phase's own record: exactly the keys energy, emotional, nutrition
    and exercise, each with that record's non-empty text. *)
Theorem get_day_info_details (target_date anchor_date : pyobj)
    (cycle_length period_length : Z) (day_info : DayInfo) :
  outcome (get_day_info target_date anchor_date cycle_length period_length
             true) = Ok day_info ->
  exists d m,
    PHASE_DETAILS !! phase day_info = Some d
    /\ populated d
    /\ details day_info = Some m
    /\ dom m = ({[ "energy"; "emotional"; "nutrition"; "exercise" ]} : gset string)
    /\ m !! "energy" = Some (energy d)
    /\ m !! "emotional" = Some (emotional d)
    /\ m !! "nutrition" = Some (nutrition d)
    /\ m !! "exercise" = Some (exercise d).
Proof.
  intros Hok.
  pose proof (get_day_info_cases target_date anchor_date cycle_length
                period_length true) as Hcases.
  cbv zeta in Hcases.
  destruct Hcases as [(Heq & _) | (t & a & _ & _ & Hrest)].
  { rewrite Heq in Hok. discriminate. }
  destruct Hrest as [(Heq & _) | [(Heq & _) | [(Heq & _) | Hrun]]];
    try (rewrite Heq in Hok; discriminate).
  destruct Hrun as (_ & _ & _ & _ & ph & d & _ & Hd & Hpop & Heq).
  rewrite Heq in Hok. injection Hok as <-. cbn [phase details].
  exists d, (model_dump d).
  pose proof (model_dump_lookup d) as (He & Hm & Hn & Hx).
  repeat (split; [first [assumption | reflexivity | apply model_dump_dom] | ]).
  exact Hx.
Qed.

Lemma get_day_info_details_witness :
  exists d m,
    PHASE_DETAILS !! "luteal" = Some d
    /\ populated d
    /\ Some (model_dump luteal_details) = Some m
    /\ dom m = ({[ "energy"; "emotional"; "nutrition"; "exercise" ]} : gset string)
    /\ m !! "energy" = Some (energy d)
    /\ m !! "emotional" = Some (emotional d)
    /\ m !! "nutrition" = Some (nutrition d)
    /\ m !! "exercise" = Some (exercise d).
Proof.
  apply (get_day_info_details (PyDate (mkdate 2024 3 10))
           (PyDate (mkdate 2024 2 15)) 28 5
           (mkDayInfo (mkdate 2024 3 10) 25 "luteal"
              (Some (model_dump luteal_details)))).
  reflexivity.
Defined.

(** X17: asking [get_day_info] about the date a whole number of
    clamped cycles after a target (itself not before the anchor) gives
    the same cycle day, phase and details, or the same error; only the
    date of the record differs. *)
Theorem get_day_info_whole_cycles_later (target anchor later : date)
    (cycle_length period_length k : Z) (include_details : bool) :
  valid_date target -> valid_date anchor ->
  0 <= k ->
  date_lt target anchor = false ->
  date_add target (k * clamp_cycle_length cycle_length) = Some later ->
  outcome (get_day_info (PyDate later) (PyDate anchor) cycle_length
             period_length include_details)
  = match outcome (get_day_info (PyDate target) (PyDate anchor) cycle_length
                     period_length include_details) with
    | Ok day_info =>
        Ok (mkDayInfo later (cycleDay day_info) (phase day_info)
              (details day_info))
    | Raise e => Raise e
    end.
Proof.
  intros Ht Ha Hk Hlt Hlater.
  apply date_add_spec in Hlater as [Hl Hord].
  pose proof (clamp_cycle_length_range cycle_length) as Hc.
  unfold MIN_CYCLE_LENGTH in Hc.
  assert (Hlt' : date_lt later anchor = false).
  { apply date_lt_false_of_ordinal; try assumption.
    pose proof (toordinal_le target anchor Ht Ha Hlt). nia. }
  destruct (Z_le_gt_dec cycle_length 0) as [Hcl | Hcl].
  { unfold get_day_info.
    destruct (Z.leb_spec cycle_length 0); [reflexivity | lia]. }
  destruct (Z_le_gt_dec period_length 0) as [Hpl | Hpl].
  { unfold get_day_info.
    destruct (Z.leb_spec cycle_length 0), (Z.leb_spec period_length 0);
      first [reflexivity | lia]. }
  rewrite !get_day_info_guarded by (assumption || lia).
  rewrite !get_cycle_day_ok by (assumption || lia).
  rewrite (whole_cycles_same_residue target anchor later _ k Hord) by lia.
  cbn [lift bind].
  destruct (get_cycle_phase _ cycle_length period_length
              DEFAULT_LUTEAL_PHASE_LENGTH) as [ph | e]; [ | reflexivity].
  destruct include_details; [ | reflexivity].
  destruct (get_phase_details ph) as [l [d | e]]; reflexivity.
Qed.

Lemma get_day_info_whole_cycles_later_witness :
  outcome (get_day_info (PyDate (mkdate 2024 5 19))
             (PyDate (mkdate 2024 2 15)) 40 5 false)
  = match outcome (get_day_info (PyDate (mkdate 2024 3 10))
                     (PyDate (mkdate 2024 2 15)) 40 5 false) with
    | Ok day_info =>
        Ok (mkDayInfo (mkdate 2024 5 19) (cycleDay day_info) (phase day_info)
              (details day_info))
    | Raise e => Raise e
    end.
Proof.
  apply (get_day_info_whole_cycles_later (mkdate 2024 3 10)
           (mkdate 2024 2 15) (mkdate 2024 5 19) 40 5 2 false);
    [exact valid_2024_03_10 | exact valid_2024_02_15 | lia
    | reflexivity | reflexivity].
Defined.

(** X1: the first day of every cycle.  For positive lengths with the
    period no longer than the cycle, the date a whole number of clamped
    cycles after the anchor (the anchor itself for [k = 0]) is cycle
    day 1 and menstrual, with the menstrual record as details when they
    are asked for. *)
Theorem get_day_info_cycle_start (anchor target : date)
    (cycle_length period_length k : Z) (include_details : bool) :
  valid_date anchor ->
  0 < cycle_length -> 0 < period_length -> period_length <= cycle_length ->
  0 <= k ->
  date_add anchor (k * clamp_cycle_length cycle_length) = Some target ->
  outcome (get_day_info (PyDate target) (PyDate anchor) cycle_length
             period_length include_details)
  = Ok (mkDayInfo target 1 "menstrual"
          (if include_details then Some (model_dump menstrual_details)
           else None)).
Proof.
  intros Ha Hc Hp Hle Hk Hadd.
  apply date_add_spec in Hadd as [Ht Hord].
  pose proof (clamp_cycle_length_range cycle_length) as Hr.
  unfold MIN_CYCLE_LENGTH in Hr.
  assert (Hday : get_cycle_day (PyDate target) (PyDate anchor) cycle_length
                 = Ok 1).
  { apply (get_cycle_day_whole_cycles target anchor cycle_length k);
      try assumption. unfold days_between. lia. }
  assert (Hlt : date_lt target anchor = false).
  { apply date_lt_false_of_ordinal; try assumption. nia. }
  rewrite get_day_info_guarded by assumption.
  rewrite Hday. cbn [lift bind].
  assert (Hphase : get_cycle_phase 1 cycle_length period_length
                     DEFAULT_LUTEAL_PHASE_LENGTH = Ok "menstrual").
  { rewrite get_cycle_phase_eq by (unfold DEFAULT_LUTEAL_PHASE_LENGTH; lia).
    destruct (Z.leb_spec 1 period_length); [reflexivity | lia]. }
  rewrite Hphase. destruct include_details; reflexivity.
Qed.

Lemma get_day_info_cycle_start_witness :
  outcome (get_day_info (PyDate (mkdate 2024 5 9)) (PyDate (mkdate 2024 2 15))
             28 5 true)
  = Ok (mkDayInfo (mkdate 2024 5 9) 1 "menstrual"
          (if true then Some (model_dump menstrual_details) else None)).
Proof.
  apply (get_day_info_cycle_start (mkdate 2024 2 15) (mkdate 2024 5 9)
           28 5 3 true);
    [exact valid_2024_02_15 | lia | lia | lia | lia | reflexivity].
Defined.

End DayInfoMore.

(** ** The HTTP route *)

Section RouteFacts.

(** The answer of the handler once the anchor date is known. *)
Lemma day_info_api_answer (query_date last_period_start_date : option date)
    (cycle_length period_length : Z) (include_details : bool)
    (current_date anchor : date) :
  match last_period_start_date with
  | Some d => Some d
  | None => date_sub_days current_date 28
  end = Some anchor ->
  snd (day_info_api query_date last_period_start_date cycle_length
         period_length include_details current_date)
  = if match last_period_start_date with
       | Some d => date_gt d (default current_date query_date)
       | None => false
       end
    then HTTPException 400 "The last period start date cannot be in the future."
    else
      match outcome (get_day_info (PyDate (default current_date query_date))
                       (PyDate anchor) cycle_length period_length
                       include_details) with
      | Ok day_info => Response200 day_info
      | Raise e =>
          if is_ValueError e then HTTPException 400 (exn_str e)
          else HTTPException 500 "An internal server error occurred."
      end.
Proof.
  intros Hanchor. unfold day_info_api. rewrite Hanchor.
  destruct query_date as [q | ]; cbn [default from_option id];
    (destruct (match last_period_start_date with
               | Some d => date_gt d _
               | None => false
               end); [reflexivity | ]);
    (destruct (get_day_info _ _ _ _ _) as [l [i | e]]; cbn [outcome snd];
     [reflexivity | destruct (is_ValueError e); reflexivity]).
Qed.



(** X19: what the handler answers to a request within the declared
    bounds, once the anchor is known (the supplied start date, or 28
    days before the current date).  A target before the anchor is a 400:
    with the route's own message when the start date was supplied, with
    the calculator's bare message when it was defaulted.  Otherwise a
    period longer than the cycle is a 400 with the prefixed calculator
    message, and anything else is a 200 whose cycle day is
    [diff mod cycle_length + 1] for the requested, unclamped, length. *)
Theorem day_info_api_decision
    (query_date last_period_start_date : option date)
    (cycle_length period_length : Z) (include_details : bool)
    (current_date target anchor : date) :
  21 <= cycle_length <= 35 -> 1 <= period_length ->
  target = default current_date query_date ->
  match last_period_start_date with
  | Some d => Some d
  | None => date_sub_days current_date 28
  end = Some anchor ->
  (date_lt target anchor = true ->
   snd (day_info_api query_date last_period_start_date cycle_length
          period_length include_details current_date)
   = HTTPException 400
       (match last_period_start_date with
        | Some _ => "The last period start date cannot be in the future."
        | None => "Target date can not be before the last period start date."
        end))
  /\ (date_lt target anchor = false -> cycle_length < period_length ->
      snd (day_info_api query_date last_period_start_date cycle_length
             period_length include_details current_date)
      = HTTPException 400
          "Error calculating day info: Period length cannot be longer than cycle length.")
  /\ (date_lt target anchor = false -> period_length <= cycle_length ->
      exists ph d,
        get_cycle_phase (days_between target anchor mod cycle_length + 1)
          cycle_length period_length DEFAULT_LUTEAL_PHASE_LENGTH = Ok ph
        /\ PHASE_DETAILS !! ph = Some d
        /\ snd (day_info_api query_date last_period_start_date cycle_length
                  period_length include_details current_date)
           = Response200
               (mkDayInfo target
                  (days_between target anchor mod cycle_length + 1) ph
                  (if include_details then Some (model_dump d) else None))).
Proof.
  intros Hcl Hpl -> Hanchor.
  rewrite (day_info_api_answer _ _ _ _ _ _ anchor Hanchor).
  set (target := default current_date query_date).
  assert (Hclamp : clamp_cycle_length cycle_length = cycle_length).
  { unfold clamp_cycle_length, MIN_CYCLE_LENGTH, MAX_CYCLE_LENGTH. lia. }
  pose proof (get_day_info_cases (PyDate target) (PyDate anchor) cycle_length
                period_length include_details) as Hcases.
  cbv zeta in Hcases.
  destruct Hcases as [(_ & [Hbad | Hbad]) | (t & a & [= <-] & [= <-] & Hrest)];
    try discriminate.
  rewrite Hclamp in Hrest.
  assert (Hgt : match last_period_start_date with
                | Some d => date_gt d target
                | None => false
                end
                = match last_period_start_date with
                  | Some _ => date_lt target anchor
                  | None => false
                  end).
  { destruct last_period_start_date; [ | reflexivity].
    injection Hanchor as ->. reflexivity. }
  rewrite Hgt.
  destruct Hrest as [(_ & ?) | [(Heq & _ & _ & Hlt) | [(Heq & _ & _ & Hlt & Hlong)
                    | (_ & _ & Hlt & Hle & ph & d & Hph & Hd & _ & Heq)]]];
    [lia | | | ]; rewrite Hlt, Heq; cbn [outcome snd is_ValueError exn_str].
  - split; [intros _; destruct last_period_start_date; reflexivity | ].
    split; intros; discriminate.
  - split; [intros; discriminate | ].
    split; [intros _ _; destruct last_period_start_date; reflexivity
           | intros; lia].
  - split; [intros; discriminate | ]. split; [intros; lia | ].
    intros _ _. exists ph, d. repeat split; try assumption.
    destruct last_period_start_date; reflexivity.
Qed.

Lemma day_info_api_decision_witness :
  snd (day_info_api (Some (mkdate 2024 1 1)) None 28 5 false
         (mkdate 2024 3 10))
  = HTTPException 400
      "Target date can not be before the last period start date.".
Proof.
  destruct (day_info_api_decision (Some (mkdate 2024 1 1)) None 28 5 false
              (mkdate 2024 3 10) (mkdate 2024 1 1) (mkdate 2024 2 11)
              ltac:(lia) ltac:(lia) eq_refl eq_refl) as (Hbefore & _).
  apply Hbefore. reflexivity.
Defined.

(** X20: the handler never answers with its 500 branch, for any
    lengths; the only exception that escapes it is the overflow of
    [current date - 28 days], which happens exactly when no start date
    is supplied and the current date is before 0001-01-29. *)
Theorem day_info_api_never_500
    (query_date last_period_start_date : option date)
    (cycle_length period_length : Z) (include_details : bool)
    (current_date : date) :
  valid_date current_date ->
  (forall detail,
     snd (day_info_api query_date last_period_start_date cycle_length
            period_length include_details current_date)
     <> HTTPException 500 detail)
  /\ (snd (day_info_api query_date last_period_start_date cycle_length
             period_length include_details current_date)
      = UnhandledOverflowError
      <-> last_period_start_date = None /\ toordinal current_date <= 28).
Proof.
  intros Hvalid.
  pose proof (toordinal_range current_date Hvalid) as Hrange.
  destruct (match last_period_start_date with
            | Some d => Some d
            | None => date_sub_days current_date 28
            end) as [anchor | ] eqn:Hanchor.
  - rewrite (day_info_api_answer _ _ _ _ _ _ anchor Hanchor).
    assert (Hok : last_period_start_date = None -> 28 < toordinal current_date).
    { intros ->. unfold date_sub_days in Hanchor.
      apply date_add_spec in Hanchor as [Hv Hord].
      pose proof (toordinal_range anchor Hv). lia. }
    destruct (match last_period_start_date with
              | Some d => date_gt d _
              | None => false
              end).
    { split; [intros detail; discriminate | ].
      split; [discriminate | intros [Hn ?]; specialize (Hok Hn); lia]. }
    pose proof (get_day_info_cases (PyDate (default current_date query_date))
                  (PyDate anchor) cycle_length period_length include_details)
      as Hcases.
    cbv zeta in Hcases.
    destruct Hcases as [(_ & [Hbad | Hbad]) | (t & a & _ & _ & Hrest)];
      try discriminate.
    destruct Hrest as [(-> & _) | [(-> & _) | [(-> & _)
                      | (_ & _ & _ & _ & ph & d & _ & _ & _ & ->)]]];
      cbn [outcome snd is_ValueError];
      (split; [intros detail; discriminate | ]);
      (split; [discriminate | intros [Hn ?]; specialize (Hok Hn); lia]).
  - destruct last_period_start_date as [d | ]; [discriminate | ].
    unfold day_info_api. rewrite Hanchor. cbn [snd].
    split; [intros detail; discriminate | ].
    split; [intros _ | reflexivity]. split; [reflexivity | ].
    unfold date_sub_days in Hanchor.
    destruct (Z_le_gt_dec (toordinal current_date) 28); [assumption | ].
    destruct (date_add_some current_date (Z.opp 28)) as (t & Ht & _); [lia | ].
    congruence.
Qed.

Lemma day_info_api_never_500_witness :
  snd (day_info_api None None 28 5 false (mkdate 1 1 10))
  = UnhandledOverflowError
  <-> @None date = None /\ toordinal (mkdate 1 1 10) <= 28.
Proof.
  apply (day_info_api_never_500 None None 28 5 false (mkdate 1 1 10)).
  apply valid_dateb_spec. reflexivity.
Defined.

(** X21: a request without parameters, on any current date from
    0001-01-29 on, is answered 200 with the current date, cycle day 1,
    phase menstrual and no details. *)
Theorem day_info_route_default (current_date : date) :
  valid_date current_date ->
  28 < toordinal current_date ->
  snd (day_info_route None None None None None current_date)
  = Response200 (mkDayInfo current_date 1 "menstrual" None).
Proof.
  intros Hvalid Hlate.
  pose proof (toordinal_range current_date Hvalid) as Hrange.
  destruct (date_add_some current_date (- 28)) as (anchor & Hadd & Ha & Hord);
    [lia | ].
  unfold day_info_route. cbn [default from_option id Z.geb Z.leb Z.compare
                               Pos.compare Pos.compare_cont andb].
  rewrite (day_info_api_answer None None 28 5 false current_date anchor Hadd).
  cbn [default from_option id].
  assert (Hback : date_add anchor (1 * clamp_cycle_length 28)
                  = Some current_date).
  { destruct (date_add_some anchor (1 * clamp_cycle_length 28))
      as (t & Ht & Hvt & Hot).
    - rewrite Hord. change (1 * clamp_cycle_length 28) with 28. lia.
    - rewrite Ht. f_equal. apply toordinal_inj; try assumption.
      rewrite Hot, Hord. change (1 * clamp_cycle_length 28) with 28. lia. }
  assert (Hlt : date_lt current_date anchor = false).
  { apply date_lt_false_of_ordinal; try assumption. lia. }
  assert (Hday : get_cycle_day (PyDate current_date) (PyDate anchor) 28 = Ok 1).
  { apply (get_cycle_day_whole_cycles current_date anchor 28 1);
      try assumption; try lia.
    unfold days_between. rewrite Hord.
    change (1 * clamp_cycle_length 28) with 28. lia. }
  rewrite get_day_info_guarded by (lia || assumption).
  rewrite Hday. reflexivity.
Qed.

Lemma day_info_route_default_witness :
  snd (day_info_route None None None None None (mkdate 2024 3 10))
  = Response200 (mkDayInfo (mkdate 2024 3 10) 1 "menstrual" None).
Proof.
  apply (day_info_route_default (mkdate 2024 3 10));
    [exact valid_2024_03_10 | vm_compute; reflexivity].
Defined.

End RouteFacts.
